(** * Street-network sampling: [crear_muestra_calles.py]

    A shallow embedding of the two dataset reducers of
    [web/route-planner-ui/public/crear_muestra_calles.py]:

    - [crear_muestra_calles]: random sample of at most [max_nodos] nodes;
    - [crear_muestra_centro]: nodes within [radio_km] of a centre point,
      with its local helper [calcular_distancia].

    Both read a JSON dataset, select nodes, keep the edges whose two
    endpoints were selected, write the reduced dataset and print statistics.

    Modelling choices.
    - Python [int] is [Z]; [len] is [length] (a [nat], injected in [Z]
      where the code mixes it with a parameter).
    - Python [float] is an abstract carrier [F] with the operations the
      script uses (class [PyFloat]); the functions are generic in it.  The
      instance [R_PyFloat] reads them in exact real arithmetic.
    - The file system, the console and the state of the module-wide random
      generator form the [world]; a function is a state-and-error monad
      computation over it.  A JSON file is held as the parsed [dataset].
    - [random.sample] is library code: it is modelled by its argument
      check and the pool loop of CPython's [Random.sample], over a stream of
      raw random words.  (For large populations CPython draws the [k]
      distinct positions by rejection instead; the model uses the pool loop
      at every size.)
    - The types carry what the script takes for granted: an input document
      has its ["nodes"] and ["edges"] lists, a node its ["id"], ["lat"] and
      ["lon"], an edge its ["from"] and ["to"].  Opening the output for
      writing succeeds.
    - The operations [f_sin], [f_cos], [f_asin] and [f_sqrt] of [PyFloat]
      are total: they are what the C library returns, nan included.
      Python's [math] raises [ValueError] where the C function leaves its
      domain; these wrappers are class [PyMath], and module [Py] holds the
      radius reducer written with them: [crear_muestra_centro] outside
      [Py] is its reading on the runs in which no distance raises
      ([checked_reducer_refines]).  Module [Doubles] gives the instances
      on IEEE binary64. *)

From Stdlib Require Import ZArith Reals Lra Lia Ascii.
From Stdlib Require Floats.
From stdpp Require Import gmap strings list.

Open Scope string_scope.
Open Scope list_scope.
Open Scope nat_scope.

(** ** Python values *)

(** Exceptions the modelled code paths can end with. *)
Inductive exn : Set :=
| FileNotFoundError
| ValueError
| IndexError
| ZeroDivisionError.

(** The float operations of the script.  [f_of_int] is the implicit
    int-to-float conversion of mixed arithmetic ([dlat/2], [2 * asin(..)],
    [R * c], [radio_km * 1000]); [f_pow] is [x ** n] with an int exponent. *)
Class PyFloat (F : Type) : Type := {
  f_of_int : Z → F;
  f_add : F → F → F;
  f_sub : F → F → F;
  f_mul : F → F → F;
  f_div : F → F → F;
  f_pow : F → Z → F;
  f_radians : F → F;
  f_sin : F → F;
  f_cos : F → F;
  f_asin : F → F;
  f_sqrt : F → F;
  f_leb : F → F → bool;
  f_ltb : F → F → bool
}.

(** The two facts about comparison that the radius filter relies on: [<=]
    is transitive, and scaling kilometres to metres keeps the order.  They
    hold for IEEE doubles, for Python ints and for the reals. *)
Class PyFloatOrder (F : Type) `{PyFloat F} : Prop := {
  f_leb_trans : ∀ x y z : F,
    f_leb x y = true → f_leb y z = true → f_leb x z = true;
  f_mul_1000_mono : ∀ r1 r2 : F,
    f_ltb r1 r2 = true →
    f_leb (f_mul r1 (f_of_int 1000)) (f_mul r2 (f_of_int 1000)) = true
}.

(** A formatted string, as the pieces of an f-string. *)
Inductive trozo (F : Type) : Type :=
| T (s : string)
| I (n : Z)
| Fl (x : F) (fmt : string).
Arguments T {F} s.
Arguments I {F} n.
Arguments Fl {F} x fmt.

Definition fstring (F : Type) : Type := list (trozo F).

(** ** The dataset (JSON document) *)

Record node (F : Type) : Type := Node {
  n_id : Z;
  n_lat : F;
  n_lon : F;
  n_elevation : option F;
  n_type : string;
  n_street_names : list string
}.
Arguments Node {F}.
Arguments n_id {F}.
Arguments n_lat {F}.
Arguments n_lon {F}.
Arguments n_elevation {F}.
Arguments n_type {F}.
Arguments n_street_names {F}.

Record edge (F : Type) : Type := Edge {
  e_from : Z;
  e_to : Z;
  e_weight : F;
  e_street_name : string;
  e_street_type : string;
  e_one_way : bool;
  e_max_speed : Z
}.
Arguments Edge {F}.
Arguments e_from {F}.
Arguments e_to {F}.
Arguments e_weight {F}.
Arguments e_street_name {F}.
Arguments e_street_type {F}.
Arguments e_one_way {F}.
Arguments e_max_speed {F}.

(** The ["metadata"] object.  The six first keys are common to every
    dataset; the others are present ([Some]) only in the documents that
    carry them. *)
Record metadata (F : Type) : Type := Metadata {
  city : string;
  source : string;
  extracted_date : string;
  total_nodes : Z;
  total_edges : Z;
  network_type : string;
  simplified : option bool;
  sample_size : option Z;
  center_lat : option F;
  center_lon : option F;
  radius_km : option F;
  original_nodes : option Z;
  original_edges : option Z
}.
Arguments Metadata {F}.
Arguments city {F}.
Arguments source {F}.
Arguments extracted_date {F}.
Arguments total_nodes {F}.
Arguments total_edges {F}.
Arguments network_type {F}.
Arguments simplified {F}.
Arguments sample_size {F}.
Arguments center_lat {F}.
Arguments center_lon {F}.
Arguments radius_km {F}.
Arguments original_nodes {F}.
Arguments original_edges {F}.

Record dataset (F : Type) : Type := Dataset {
  description : fstring F;
  nodes : list (node F);
  edges : list (edge F);
  meta : metadata F
}.
Arguments Dataset {F}.
Arguments description {F}.
Arguments nodes {F}.
Arguments edges {F}.
Arguments meta {F}.

(** ** The world and the monad *)

Record world (F : Type) : Type := World {
  files : gmap string (dataset F);
  stdout : list (fstring F);
  rng : nat → nat
}.
Arguments World {F}.
Arguments files {F}.
Arguments stdout {F}.
Arguments rng {F}.

Definition M (F A : Type) : Type := world F → (exn + A) * world F.

Definition ret {F A} (a : A) : M F A := λ w, (inr a, w).

Definition raise {F A} (e : exn) : M F A := λ w, (inl e, w).

Definition bind {F A B} (m : M F A) (k : A → M F B) : M F B :=
  λ w, match m w with
       | (inl e, w') => (inl e, w')
       | (inr a, w') => k a w'
       end.

Notation "'do' x <- m ; k" := (bind m (λ x, k))
  (at level 10, x name, m at level 100, k at level 200).
Notation "'do_' m ; k" := (bind m (λ _, k))
  (at level 10, m at level 100, k at level 200).

Section Primitives.
Context {F : Type}.

(** [print(...)] *)
Definition print (l : fstring F) : M F unit :=
  λ w, (inr tt, World (files w) (stdout w ++ [l]) (rng w)).

(** [with open(path, 'r') as f: json.load(f)] *)
Definition json_load (path : string) : M F (dataset F) :=
  λ w, match files w !! path with
       | Some d => (inr d, w)
       | None => (inl FileNotFoundError, w)
       end.

(** [with open(path, 'w') as f: json.dump(d, f, ...)] *)
Definition json_dump (d : dataset F) (path : string) : M F unit :=
  λ w, (inr tt, World (<[path := d]> (files w)) (stdout w) (rng w)).

(** [self._randbelow(n)]: the next raw word, reduced below [n]. *)
Definition randbelow (n : nat) : M F nat :=
  λ w, (inr (rng w 0 `mod` n),
        World (files w) (stdout w) (λ i, rng w (S i))).

(** The pool loop of [Random.sample]: at entry [m = n - i];
<<
    for i in range(k):
        j = randbelow(n - i)
        result[i] = pool[j]
        pool[j] = pool[n - i - 1]
>> *)
Fixpoint sample_loop {A} (k m : nat) (pool : list A) : M F (list A) :=
  match k with
  | O => ret []
  | S k' =>
      do j <- randbelow m;
      match pool !! j, pool !! (m - 1) with
      | Some x, Some y =>
          do rest <- sample_loop k' (m - 1) (<[j := y]> pool);
          ret (x :: rest)
      | _, _ => raise IndexError
      end
  end.

(** [random.sample(population, k)]:
<<
    n = len(population)
    if not 0 <= k <= n:
        raise ValueError("Sample larger than population or is negative")
>> *)
Definition random_sample {A} (population : list A) (k : Z) : M F (list A) :=
  let n := length population in
  if bool_decide (0 ≤ k ≤ Z.of_nat n)%Z
  then sample_loop (Z.to_nat k) n population
  else raise ValueError.
End Primitives.

(** ** The script *)

Section Script.
Context `{PyFloat F}.

(** [len(l)] as a Python int. *)
Definition len {A} (l : list A) : Z := Z.of_nat (length l).

(** [a / b] on two ints: true division, [ZeroDivisionError] on [b == 0]. *)
Definition truediv (a b : Z) : M F F :=
  if bool_decide (b = 0%Z) then raise ZeroDivisionError
  else ret (f_div (f_of_int a) (f_of_int b)).

(** *** [crear_muestra_calles] *)

(** Line 31:
    [random.sample(nodos_originales, min(max_nodos, len(nodos_originales)))] *)
Definition nodos_muestra (nodos_originales : list (node F)) (max_nodos : Z)
  : M F (list (node F)) :=
  random_sample nodos_originales (Z.min max_nodos (len nodos_originales)).

(** Line 34: [{nodo['id'] for nodo in nodos_muestra}] *)
Definition ids_nodos_muestra (nodos_muestra : list (node F)) : gset Z :=
  list_to_set (n_id <$> nodos_muestra).

(** Lines 37-40: the edge loop. *)
Definition aristas_muestra (data_edges : list (edge F)) (ids : gset Z)
  : list (edge F) :=
  foldl (λ aristas arista,
           if bool_decide (e_from arista ∈ ids) && bool_decide (e_to arista ∈ ids)
           then aristas ++ [arista]
           else aristas)
        [] data_edges.

(** Lines 43-58: the dictionary that is written out. *)
Definition muestra (data : dataset F) (max_nodos : Z)
    (nodos : list (node F)) (aristas : list (edge F)) : dataset F :=
  {| description :=
       [T "Muestra de "; I max_nodos;
        T " nodos del dataset completo de calles de Culiacán"];
     nodes := nodos;
     edges := aristas;
     meta :=
       {| city := "Culiacán, Sinaloa, México";
          source := "OpenStreetMap via OSMnx";
          extracted_date := "2024-01-15";
          total_nodes := len nodos;
          total_edges := len aristas;
          network_type := "drive";
          simplified := None;
          sample_size := Some max_nodos;
          center_lat := None;
          center_lon := None;
          radius_km := None;
          original_nodes := Some (len (nodes data));
          original_edges := Some (len (edges data)) |} |}.

Definition crear_muestra_calles
    (archivo_original archivo_muestra : string) (max_nodos : Z) : M F unit :=
  do_ print [T "📖 Leyendo dataset completo: "; T archivo_original];
  do data <- json_load archivo_original;
  do_ print [T "📊 Dataset original:"];
  do_ print [T "   - Nodos: "; I (len (nodes data))];
  do_ print [T "   - Aristas: "; I (len (edges data))];
  let nodos_originales := nodes data in
  do nodos <- nodos_muestra nodos_originales max_nodos;
  let ids := ids_nodos_muestra nodos in
  let aristas := aristas_muestra (edges data) ids in
  do_ json_dump (muestra data max_nodos nodos aristas) archivo_muestra;
  do_ print [T "💾 Muestra guardada como: "; T archivo_muestra];
  do_ print [T "📊 Estadísticas de la muestra:"];
  do_ print [T "   - Nodos: "; I (len nodos)];
  do_ print [T "   - Aristas: "; I (len aristas)];
  do densidad <- truediv (len aristas) (len nodos);
  do_ print [T "   - Densidad: "; Fl densidad ".2f"; T " aristas/nodo"];
  do reduccion <- truediv (len nodos) (len (nodes data));
  print [T "   - Reducción: "; Fl (f_mul reduccion (f_of_int 100)) ".1f";
         T "% de nodos originales"].

(** *** [crear_muestra_centro] *)

(** Lines 89-96. *)
Definition calcular_distancia (lat1 lon1 lat2 lon2 : F) : F :=
  let R := f_of_int 6371000 in
  let dlat := f_radians (f_sub lat2 lat1) in
  let dlon := f_radians (f_sub lon2 lon1) in
  let a :=
    f_add (f_pow (f_sin (f_div dlat (f_of_int 2))) 2)
          (f_mul (f_mul (f_cos (f_radians lat1)) (f_cos (f_radians lat2)))
                 (f_pow (f_sin (f_div dlon (f_of_int 2))) 2)) in
  let c := f_mul (f_of_int 2) (f_asin (f_sqrt a)) in
  f_mul R c.

(** Lines 99-105: the node loop. *)
Definition nodos_centro (data_nodes : list (node F))
    (centro_lat centro_lon radio_km : F) : list (node F) :=
  let radio_metros := f_mul radio_km (f_of_int 1000) in
  foldl (λ nodos nodo,
           let distancia :=
             calcular_distancia centro_lat centro_lon (n_lat nodo) (n_lon nodo) in
           if f_leb distancia radio_metros
           then nodos ++ [nodo]
           else nodos)
        [] data_nodes.

(** Line 108: [{nodo['id'] for nodo in nodos_centro}] *)
Definition ids_nodos_centro (nodos_centro : list (node F)) : gset Z :=
  list_to_set (n_id <$> nodos_centro).

(** Lines 111-114: the edge loop. *)
Definition aristas_centro (data_edges : list (edge F)) (ids : gset Z)
  : list (edge F) :=
  foldl (λ aristas arista,
           if bool_decide (e_from arista ∈ ids) && bool_decide (e_to arista ∈ ids)
           then aristas ++ [arista]
           else aristas)
        [] data_edges.

(** Lines 117-134: the dictionary that is written out. *)
Definition muestra_centro (data : dataset F) (centro_lat centro_lon radio_km : F)
    (nodos : list (node F)) (aristas : list (edge F)) : dataset F :=
  {| description :=
       [T "Muestra centrada en ("; Fl centro_lat ""; T ", "; Fl centro_lon "";
        T ") con radio de "; Fl radio_km ""; T "km"];
     nodes := nodos;
     edges := aristas;
     meta :=
       {| city := "Culiacán, Sinaloa, México";
          source := "OpenStreetMap via OSMnx";
          extracted_date := "2024-01-15";
          total_nodes := len nodos;
          total_edges := len aristas;
          network_type := "drive";
          simplified := None;
          sample_size := None;
          center_lat := Some centro_lat;
          center_lon := Some centro_lon;
          radius_km := Some radio_km;
          original_nodes := Some (len (nodes data));
          original_edges := Some (len (edges data)) |} |}.

Definition crear_muestra_centro
    (archivo_original archivo_muestra : string)
    (centro_lat centro_lon radio_km : F) : M F unit :=
  do_ print [T "📖 Leyendo dataset completo: "; T archivo_original];
  do data <- json_load archivo_original;
  let nodos := nodos_centro (nodes data) centro_lat centro_lon radio_km in
  let ids := ids_nodos_centro nodos in
  let aristas := aristas_centro (edges data) ids in
  do_ json_dump (muestra_centro data centro_lat centro_lon radio_km nodos aristas)
                archivo_muestra;
  do_ print [T "💾 Muestra centrada guardada como: "; T archivo_muestra];
  do_ print [T "📊 Estadísticas de la muestra centrada:"];
  do_ print [T "   - Nodos: "; I (len nodos)];
  do_ print [T "   - Aristas: "; I (len aristas)];
  do densidad <- truediv (len aristas) (len nodos);
  print [T "   - Densidad: "; Fl densidad ".2f"; T " aristas/nodo"].
End Script.

(** ** Exact real arithmetic as an instance *)

#[export] Instance Rle_decision (x y : R) : Decision (x <= y)%R := Rle_dec x y.
#[export] Instance Rlt_decision (x y : R) : Decision (x < y)%R := Rlt_dec x y.

(** [math.radians(x)] is [x * (pi / 180)]. *)
#[export] Instance R_PyFloat : PyFloat R := {|
  f_of_int := IZR;
  f_add := Rplus;
  f_sub := Rminus;
  f_mul := Rmult;
  f_div := Rdiv;
  f_pow := powerRZ;
  f_radians := λ x, (x * (PI / 180))%R;
  f_sin := sin;
  f_cos := cos;
  f_asin := asin;
  f_sqrt := sqrt;
  f_leb := λ x y, bool_decide (x <= y)%R;
  f_ltb := λ x y, bool_decide (x < y)%R
|}.

(** The haversine formula as the specification writes it, on angles in
    radians and a sphere of radius [radius]:
<<
      a = sin²(Δlat/2) + cos(lat1)·cos(lat2)·sin²(Δlon/2)
      d = 2·R·asin(√a)
>> *)
Definition haversine (radius φ1 λ1 φ2 λ2 : R) : R :=
  let a := ((sin ((φ2 - φ1) / 2))² + cos φ1 * cos φ2 * (sin ((λ2 - λ1) / 2))²)%R in
  (2 * radius * asin (sqrt a))%R.

(** Degrees to radians. *)
Definition deg (x : R) : R := (x * PI / 180)%R.

(** ** A small dataset to run the script on

    Three intersections A(0,0), B(0,0.01) and C(10,10), the streets A-B and
    B-C, and the metadata the extractor writes for another city. *)

Section Ejemplo.
Open Scope R_scope.

Definition nodo_A : node R := Node 1 0 0 None "intersection" [].
Definition nodo_B : node R := Node 2 0 (1 / 100) None "intersection" [].
Definition nodo_C : node R := Node 3 10 10 None "intersection" [].

Definition calle_AB : edge R := Edge 1 2 1113 "Sin nombre" "residential" false 50.
Definition calle_BC : edge R := Edge 2 3 1568000 "Sin nombre" "unknown" false 50.

Definition red_ejemplo : dataset R :=
  {| description :=
       [T "Red de calles de Guadalajara, Jalisco, México extraída de OpenStreetMap"];
     nodes := [nodo_A; nodo_B; nodo_C];
     edges := [calle_AB; calle_BC];
     meta :=
       {| city := "Guadalajara, Jalisco, México";
          source := "OpenStreetMap via OSMnx";
          extracted_date := "2024-01-15";
          total_nodes := 3;
          total_edges := 2;
          network_type := "drive";
          simplified := Some true;
          sample_size := None;
          center_lat := None;
          center_lon := None;
          radius_km := None;
          original_nodes := None;
          original_edges := None |} |}.

(** A node on the far side of the globe from the origin. *)
Definition nodo_lejano : node R := Node 7 0 180 None "intersection" [].

Definition red_lejana : dataset R :=
  {| description := [T "Red de calles"];
     nodes := [nodo_lejano];
     edges := [];
     meta := meta red_ejemplo |}.

(** The initial world: the two inputs on disk, an empty console, and a
    generator whose raw words are all 0. *)
Definition mundo : world R :=
  {| files := <["lejana.json" := red_lejana]> (<["red.json" := red_ejemplo]> ∅);
     stdout := [];
     rng := λ _, 0%nat |}.
End Ejemplo.

(** ** Predicates used in the statements *)

Section Predicates.
Context `{PyFloat F}.

(** Both endpoints of [e] are in [ids]. *)
Definition ambos_en (ids : gset Z) (e : edge F) : Prop :=
  e_from e ∈ ids ∧ e_to e ∈ ids.

#[export] Instance ambos_en_dec ids e : Decision (ambos_en ids e) :=
  and_dec (decide (e_from e ∈ ids)) (decide (e_to e ∈ ids)).

(** The node-id set of a node list. *)
Definition ids_de (ns : list (node F)) : gset Z := list_to_set (n_id <$> ns).

(** [n] is within [radio_km] kilometres of the centre: its distance is
    [<=] the radius in metres. *)
Definition dentro (centro_lat centro_lon radio_km : F) (n : node F) : Prop :=
  f_leb (calcular_distancia centro_lat centro_lon (n_lat n) (n_lon n))
        (f_mul radio_km (f_of_int 1000)) = true.

#[export] Instance dentro_dec clat clon r n : Decision (dentro clat clon r n) :=
  decide (f_leb (calcular_distancia clat clon (n_lat n) (n_lon n))
                (f_mul r (f_of_int 1000)) = true).

(** The outcome of running [m] from [w], and the files it leaves. *)
Definition resultado {A} (m : M F A) (w : world F) : exn + A := (m w).1.
Definition archivos {A} (m : M F A) (w : world F) : gmap string (dataset F) :=
  files (m w).2.
End Predicates.

(** ** The [__main__] block of [crear_muestra_calles.py] *)

(** A float literal of the source text: [f_literal m k] is the decimal
    [m * 10^-k], so [24.7841] is [f_literal 247841 4] and [-107.3866] is
    [f_literal (-1073866) 4]. *)
Class PyFloatLiteral (F : Type) : Type := f_literal : Z → nat → F.

#[export] Instance R_PyFloatLiteral : PyFloatLiteral R :=
  λ m k, (IZR m / 10 ^ k)%R.

Section Main.
Context `{PyFloat F} `{PyFloatLiteral F}.

(** Lines 146-161: the random sample of 1000 nodes, then the sample around
    the centre of Culiacán; an exception of the first call ends the
    script. *)
Definition main : M F unit :=
  do_ crear_muestra_calles
        "public/calles_culiacán__sinaloa__méxico.json"
        "public/calles_culiacan_muestra_1000.json"
        1000;
  crear_muestra_centro
    "public/calles_culiacán__sinaloa__méxico.json"
    "public/calles_culiacan_centro.json"
    (f_literal 247841 4) (f_literal (-1073866) 4) (f_of_int 2).
End Main.

(** ** [extraer_calles_reales.py]

    OSMnx is a collaborator outside the repository: its graph type is held
    as the two sequences the script iterates, and its calls are parameters
    that return a graph or raise with a message.  Its own cache files and
    log lines are outside the [world]. *)

(** The attributes the script reads from a node of the graph: [data['y']],
    [data['x']], [data.get('elevation')]. *)
Record osm_node (F : Type) : Type := OsmNode {
  osm_y : F;
  osm_x : F;
  osm_elevation : option F
}.
Arguments OsmNode {F}.
Arguments osm_y {F}.
Arguments osm_x {F}.
Arguments osm_elevation {F}.

(** The attributes the script reads from an edge, each with [data.get]:
    absent is [None]. *)
Record osm_edge (F : Type) : Type := OsmEdge {
  osm_length : option F;
  osm_name : option string;
  osm_highway : option string;
  osm_oneway : option bool;
  osm_maxspeed : option Z
}.
Arguments OsmEdge {F}.
Arguments osm_length {F}.
Arguments osm_name {F}.
Arguments osm_highway {F}.
Arguments osm_oneway {F}.
Arguments osm_maxspeed {F}.

(** [G.nodes(data=True)] and [G.edges(data=True)]. *)
Record grafo (F : Type) : Type := Grafo {
  g_nodes : list (Z * osm_node F);
  g_edges : list (Z * Z * osm_edge F)
}.
Arguments Grafo {F}.
Arguments g_nodes {F}.
Arguments g_edges {F}.

(** What the extractor can end with: an exception of Python itself, or one
    raised inside OSMnx, kept as its message [str(e)]. *)
Inductive excepcion : Set :=
| Builtin (e : exn)
| Osmnx (mensaje : string).

Definition MX (F A : Type) : Type := world F → (excepcion + A) * world F.

Definition retX {F A} (a : A) : MX F A := λ w, (inr a, w).

Definition raiseX {F A} (e : excepcion) : MX F A := λ w, (inl e, w).

Definition bindX {F A B} (m : MX F A) (k : A → MX F B) : MX F B :=
  λ w, match m w with
       | (inl e, w') => (inl e, w')
       | (inr a, w') => k a w'
       end.

(** A computation of the reducers' monad, run in the extractor's. *)
Definition lift {F A} (m : M F A) : MX F A :=
  λ w, match m w with
       | (inl e, w') => (inl (Builtin e), w')
       | (inr a, w') => (inr a, w')
       end.

(** [try: m  except Exception as e: handler(e)].  Every member of
    [excepcion] is of Python's class [Exception], so the handler takes
    them all. *)
Definition try_except {F A} (m : MX F A) (handler : excepcion → MX F A) : MX F A :=
  λ w, match m w with
       | (inl e, w') => handler e w'
       | (inr a, w') => (inr a, w')
       end.

(** A call into OSMnx: the graph, or the message of the exception. *)
Definition llamar {F A} (r : string + A) : MX F A :=
  match r with
  | inl mensaje => raiseX (Osmnx mensaje)
  | inr a => retX a
  end.

Notation "'dox' x <- m ; k" := (bindX m (λ x, k))
  (at level 10, x name, m at level 100, k at level 200).
Notation "'dox_' m ; k" := (bindX m (λ _, k))
  (at level 10, m at level 100, k at level 200).

(** [s.replace(a, b)] for one-character [a] and [b]. *)
Fixpoint replace_char (a b : Ascii.ascii) (s : string) : string :=
  match s with
  | EmptyString => EmptyString
  | String c s' =>
      String (if Ascii.eqb c a then b else c) (replace_char a b s')
  end.

(** [str(e)] of the exceptions the script can print.  Only [Osmnx] and
    [ZeroDivisionError] arise in the extractor; the text of the others is
    given without the arguments Python appends to it. *)
Definition str_excepcion (e : excepcion) : string :=
  match e with
  | Osmnx mensaje => mensaje
  | Builtin ZeroDivisionError => "division by zero"
  | Builtin FileNotFoundError => "[Errno 2] No such file or directory"
  | Builtin ValueError => "Sample larger than population or is negative"
  | Builtin IndexError => "list index out of range"
  end.

Section Extractor.
Context `{PyFloat F}.

(** [ox.graph_from_place(ciudad, network_type='drive')],
    [ox.graph_from_point(centro, dist=..., network_type='drive')] and
    [ox.simplify_graph(G)]; [lower] is [str.lower]. *)
Variable graph_from_place : string → string + grafo F.
Variable graph_from_point : F * F → F → string + grafo F.
Variable simplify_graph : grafo F → string + grafo F.
Variable lower : string → string.

(** Lines 29-33 and 104-108:
<<
    try:
        G = ox.simplify_graph(G)
    except Exception as e:
        print(f"... El grafo ya está simplificado: {e}")
        pass
>> *)
Definition simplificar (G : grafo F) : MX F (grafo F) :=
  try_except (llamar (simplify_graph G))
    (λ e, dox_ lift (print [T "⚠️ El grafo ya está simplificado: ";
                            T (str_excepcion e)]);
          retX G).

(** The graph bound to [G] after the [try] statement: the simplified one,
    or the one downloaded when the simplification raised. *)
Definition grafo_final (G0 : grafo F) : grafo F :=
  match simplify_graph G0 with
  | inr G => G
  | inl _ => G0
  end.

(** The ends of every edge of [G] are nodes of [G]. *)
Definition grafo_cerrado (G : grafo F) : Prop :=
  ∀ u v data, (u, v, data) ∈ g_edges G →
              u ∈ (g_nodes G).*1 ∧ v ∈ (g_nodes G).*1.

(** Lines 42-50: one node of the dataset per node of the graph. *)
Definition nodo_de (nd : Z * osm_node F) : node F :=
  let '(node_id, data) := nd in
  {| n_id := node_id;
     n_lat := osm_y data;
     n_lon := osm_x data;
     n_elevation := osm_elevation data;
     n_type := "intersection";
     n_street_names := [] |}.

(** Lines 53-62: one edge of the dataset per edge of the graph, with the
    defaults of [data.get]. *)
Definition arista_de (ed : Z * Z * osm_edge F) : edge F :=
  let '(u, v, data) := ed in
  {| e_from := u;
     e_to := v;
     e_weight := default (f_of_int 0) (osm_length data);
     e_street_name := default "Sin nombre" (osm_name data);
     e_street_type := default "unknown" (osm_highway data);
     e_one_way := default false (osm_oneway data);
     e_max_speed := default 50%Z (osm_maxspeed data) |}.

(** The two loops, each appending to a list that starts empty. *)
Definition nodos_de (G : grafo F) : list (node F) :=
  foldl (λ nodes nd, nodes ++ [nodo_de nd]) [] (g_nodes G).

Definition aristas_de (G : grafo F) : list (edge F) :=
  foldl (λ edges ed, edges ++ [arista_de ed]) [] (g_edges G).

(** Lines 65-78. *)
Definition dataset_de (ciudad : string) (nodes0 : list (node F))
    (edges0 : list (edge F)) : dataset F :=
  {| description :=
       [T "Red de calles de "; T ciudad; T " extraída de OpenStreetMap"];
     nodes := nodes0;
     edges := edges0;
     meta :=
       {| city := ciudad;
          source := "OpenStreetMap via OSMnx";
          extracted_date := "2024-01-15";
          total_nodes := len nodes0;
          total_edges := len edges0;
          network_type := "drive";
          simplified := Some true;
          sample_size := None;
          center_lat := None;
          center_lon := None;
          radius_km := None;
          original_nodes := None;
          original_edges := None |} |}.

(** Line 81. *)
Definition filename_de (ciudad : string) : string :=
  "calles_" +:+ lower (replace_char " "%char "_"%char
                         (replace_char ","%char "_"%char ciudad))
            +:+ ".json".

Definition extraer_calles_ciudad (ciudad : string) (distancia_km : Z)
  : MX F (dataset F) :=
  dox_ lift (print [T "🗺️ Extrayendo calles de "; T ciudad; T "..."]);
  dox G0 <- llamar (graph_from_place ciudad);
  dox G <- simplificar G0;
  dox_ lift (print [T "✅ Red extraída: "; I (len (g_nodes G)); T " nodos, ";
                    I (len (g_edges G)); T " aristas"]);
  let nodes0 := nodos_de G in
  let edges0 := aristas_de G in
  let dataset0 := dataset_de ciudad nodes0 edges0 in
  let filename := filename_de ciudad in
  dox_ lift (json_dump dataset0 filename);
  dox_ lift (print [T "💾 Dataset guardado como: "; T filename]);
  dox_ lift (print [T "📊 Estadísticas:"]);
  dox_ lift (print [T "   - Nodos: "; I (len nodes0)]);
  dox_ lift (print [T "   - Aristas: "; I (len edges0)]);
  dox densidad <- lift (truediv (len edges0) (len nodes0));
  dox_ lift (print [T "   - Densidad: "; Fl densidad ".2f"; T " aristas/nodo"]);
  retX dataset0.

(** Lines 93-115: the graph around a point; nothing is converted or
    written. *)
Definition extraer_por_coordenadas (centro_lat centro_lon distancia_km : F)
  : MX F (grafo F) :=
  dox_ lift (print [T "🗺️ Extrayendo calles alrededor de ("; Fl centro_lat "";
                    T ", "; Fl centro_lon ""; T ")..."]);
  let centro := (centro_lat, centro_lon) in
  dox G0 <- llamar (graph_from_point centro
                      (f_mul distancia_km (f_of_int 1000)));
  dox G <- simplificar G0;
  dox_ lift (print [T "✅ Red extraída: "; I (len (g_nodes G)); T " nodos, ";
                    I (len (g_edges G)); T " aristas"]);
  retX G.

(** Lines 117-128: the [__main__] block. *)
Definition extraer_main : MX F unit :=
  try_except
    (dox dataset0 <- extraer_calles_ciudad "Culiacán, Sinaloa, México" 10;
     retX tt)
    (λ e, dox_ lift (print [T "❌ Error: "; T (str_excepcion e)]);
          lift (print [T "💡 Asegúrate de tener instalado: pip install osmnx"])).
End Extractor.

(** ** A small graph to run the extractor on

    The same three intersections and two streets as [red_ejemplo], as
    OSMnx would hand them over, with the attributes of A-B present and
    those of B-C absent. *)

Section GrafoEjemplo.
Open Scope R_scope.

Definition grafo_ejemplo : grafo R :=
  {| g_nodes := [(1%Z, OsmNode 0 0 None);
                 (2%Z, OsmNode 0 (1 / 100) (Some 60));
                 (3%Z, OsmNode 10 10 None)];
     g_edges := [(1%Z, 2%Z, OsmEdge (Some 1113) (Some "Avenida Obregón")
                              (Some "primary") (Some true) (Some 40%Z));
                 (2%Z, 3%Z, OsmEdge None None None None None)] |}.

(** OSMnx answering with that graph, and refusing to simplify it again. *)
Definition place_ejemplo (ciudad : string) : string + grafo R := inr grafo_ejemplo.
Definition point_ejemplo (centro : R * R) (dist : R) : string + grafo R :=
  inr grafo_ejemplo.
Definition simplify_ejemplo (G : grafo R) : string + grafo R :=
  inl "This graph has already been simplified, cannot simplify it again.".

(** OSMnx failing to find the place. *)
Definition place_caido (ciudad : string) : string + grafo R :=
  inl "Nominatim could not geocode query".
End GrafoEjemplo.

(** [str.lower] on text whose letters outside ASCII are already lower
    case: the bytes [A]-[Z] move to [a]-[z], the others stay. *)
Definition minuscula (c : ascii) : ascii :=
  let n := nat_of_ascii c in
  if (65 <=? n)%nat && (n <=? 90)%nat then ascii_of_nat (n + 32) else c.

Fixpoint minusculas (s : string) : string :=
  match s with
  | EmptyString => EmptyString
  | String c s' => String (minuscula c) (minusculas s')
  end.

(** The world in which the [__main__] block of the reducers finds its
    input. *)
Definition mundo_public : world R :=
  {| files := <["public/calles_culiacán__sinaloa__méxico.json" := red_ejemplo]> ∅;
     stdout := [];
     rng := λ _, 0 |}.

(** ** [server.py]: the simulated backend *)

(** [needle in haystack] on two strings. *)
Fixpoint contiene (needle haystack : string) : bool :=
  String.prefix needle haystack ||
  match haystack with
  | EmptyString => false
  | String _ resto => contiene needle resto
  end.

(** Lines 182-199, for a [command] that is a string: the body of the [try]
    then raises nothing. *)
Definition execute_cpp_command (command : string) : string :=
  if contiene "create_graph" command then
    "[SUCCESS] Created graph with specified nodes"
  else if contiene "dijkstra" command then
    "[SUCCESS] Path found with Dijkstra algorithm"
  else if contiene "astar" command then
    "[SUCCESS] Path found with A* algorithm"
  else if contiene "simulate" command then
    "[SUCCESS] Simulation started successfully"
  else
    "[SUCCESS] Command '" +:+ command +:+ "' executed successfully".

(** ** Python's [math]: the domain errors

    [math.sin], [math.cos], [math.asin] and [math.sqrt] call the C function
    and raise [ValueError] ("math domain error") when it answers nan to an
    argument that is not nan: [sin] and [cos] at an infinity, [asin] outside
    [-1, 1], [sqrt] below zero. *)
Class PyMath (F : Type) `{PyFloat F} : Type := {
  m_sin : F → exn + F;
  m_cos : F → exn + F;
  m_asin : F → exn + F;
  m_sqrt : F → exn + F
}.

(** The wrappers return the value of the C function, and raise nothing but
    [ValueError]. *)
Class PyMathSpec (F : Type) `{PyMath F} : Prop := {
  m_sin_value : ∀ x y : F, m_sin x = inr y → y = f_sin x;
  m_cos_value : ∀ x y : F, m_cos x = inr y → y = f_cos x;
  m_asin_value : ∀ x y : F, m_asin x = inr y → y = f_asin x;
  m_sqrt_value : ∀ x y : F, m_sqrt x = inr y → y = f_sqrt x;
  m_sin_error : ∀ (x : F) e, m_sin x = inl e → e = ValueError;
  m_cos_error : ∀ (x : F) e, m_cos x = inl e → e = ValueError;
  m_asin_error : ∀ (x : F) e, m_asin x = inl e → e = ValueError;
  m_sqrt_error : ∀ (x : F) e, m_sqrt x = inl e → e = ValueError
}.

(** An expression that returns or raises. *)
Definition bindE {A B} (m : exn + A) (k : A → exn + B) : exn + B :=
  match m with
  | inl e => inl e
  | inr a => k a
  end.

Notation "'doe' x <- m ; k" := (bindE m (λ x, k))
  (at level 10, x name, m at level 100, k at level 200).

(** A [for] loop over [l] whose body can raise. *)
Fixpoint foldlE {A B} (f : B → A → exn + B) (acc : B) (l : list A) : exn + B :=
  match l with
  | [] => inr acc
  | x :: l' => doe acc' <- f acc x; foldlE f acc' l'
  end.

(** The value of an expression, or its exception, inside a function. *)
Definition evaluar {F A} (r : exn + A) : M F A :=
  match r with
  | inl e => raise e
  | inr a => ret a
  end.

Module Py.
Section Reducer.
Context `{PyMath F}.

(** Lines 89-96, in Python's order of evaluation: [sin(dlat/2)],
    [cos(radians(lat1))], [cos(radians(lat2))], [sin(dlon/2)], then
    [sqrt(a)] and [asin]. *)
Definition calcular_distancia (lat1 lon1 lat2 lon2 : F) : exn + F :=
  let R := f_of_int 6371000 in
  let dlat := f_radians (f_sub lat2 lat1) in
  let dlon := f_radians (f_sub lon2 lon1) in
  doe s1 <- m_sin (f_div dlat (f_of_int 2));
  doe c1 <- m_cos (f_radians lat1);
  doe c2 <- m_cos (f_radians lat2);
  doe s2 <- m_sin (f_div dlon (f_of_int 2));
  let a := f_add (f_pow s1 2) (f_mul (f_mul c1 c2) (f_pow s2 2)) in
  doe raiz <- m_sqrt a;
  doe arco <- m_asin raiz;
  let c := f_mul (f_of_int 2) arco in
  inr (f_mul R c).

(** Lines 99-105: the node loop; an exception of [calcular_distancia]
    ends it. *)
Definition nodos_centro (data_nodes : list (node F))
    (centro_lat centro_lon radio_km : F) : exn + list (node F) :=
  let radio_metros := f_mul radio_km (f_of_int 1000) in
  foldlE (λ nodos nodo,
            doe distancia <-
              calcular_distancia centro_lat centro_lon (n_lat nodo) (n_lon nodo);
            inr (if f_leb distancia radio_metros
                 then nodos ++ [nodo]
                 else nodos))
         [] data_nodes.

(** The distance of [n] to the centre is computed and is [<=] the radius
    in metres. *)
Definition dentro (centro_lat centro_lon radio_km : F) (n : node F) : Prop :=
  ∃ d, calcular_distancia centro_lat centro_lon (n_lat n) (n_lon n) = inr d ∧
       f_leb d (f_mul radio_km (f_of_int 1000)) = true.

#[global] Instance dentro_dec clat clon r n : Decision (dentro clat clon r n).
Proof.
  unfold dentro.
  destruct (calcular_distancia clat clon (n_lat n) (n_lon n)) as [e|d].
  - right. intros (d & Hd & _). discriminate.
  - destruct (f_leb d (f_mul r (f_of_int 1000))) eqn:E.
    + left. eauto.
    + right. intros (d' & [= <-] & Hle). congruence.
Defined.

(** Lines 71-144 with the loop above; the rest is as in
    [crear_muestra_centro]. *)
Definition crear_muestra_centro
    (archivo_original archivo_muestra : string)
    (centro_lat centro_lon radio_km : F) : M F unit :=
  do_ print [T "📖 Leyendo dataset completo: "; T archivo_original];
  do data <- json_load archivo_original;
  do nodos <- evaluar (nodos_centro (nodes data) centro_lat centro_lon radio_km);
  let ids := ids_nodos_centro nodos in
  let aristas := aristas_centro (edges data) ids in
  do_ json_dump (muestra_centro data centro_lat centro_lon radio_km nodos aristas)
                archivo_muestra;
  do_ print [T "💾 Muestra centrada guardada como: "; T archivo_muestra];
  do_ print [T "📊 Estadísticas de la muestra centrada:"];
  do_ print [T "   - Nodos: "; I (len nodos)];
  do_ print [T "   - Aristas: "; I (len aristas)];
  do densidad <- truediv (len aristas) (len nodos);
  print [T "   - Densidad: "; Fl densidad ".2f"; T " aristas/nodo"].
End Reducer.

Section Main.
Context `{PyMath F} `{PyFloatLiteral F}.

(** Lines 146-161. *)
Definition main : M F unit :=
  do_ crear_muestra_calles
        "public/calles_culiacán__sinaloa__méxico.json"
        "public/calles_culiacan_muestra_1000.json"
        1000;
  crear_muestra_centro
    "public/calles_culiacán__sinaloa__méxico.json"
    "public/calles_culiacan_centro.json"
    (f_literal 247841 4) (f_literal (-1073866) 4) (f_of_int 2).
End Main.
End Py.

(** ** Laws of the float arithmetic

    Negation and a finiteness test, to state them. *)
Class PyFloatSign (F : Type) : Type := {
  f_neg : F → F;
  f_finite : F → bool
}.

(** What the distance needs of the arithmetic at zero and under a change
    of sign.  Each law holds of IEEE binary64 with round-to-nearest and a C
    library whose [sin] is odd with [sin(+0) = +0] and [asin(+0) = +0]:
    [x - x] is [+0] for finite [x]; [+0] is kept by [radians], by halving,
    by squaring, by a positive factor and by [sqrt]; [cos] of a finite
    angle is finite, so its square times [+0] is [+0]; [y - x] is the
    negation of [x - y] unless both are the same zero or nan; negation
    commutes with [radians] and with halving and is lost by squaring. *)
Class PyMathLaws (F : Type) `{PyMath F} `{PyFloatSign F} : Prop := {
  law_sub_self : ∀ x : F, f_finite x = true → f_sub x x = f_of_int 0;
  law_radians_zero : f_radians (f_of_int 0 : F) = f_of_int 0;
  law_half_zero : f_div (f_of_int 0 : F) (f_of_int 2) = f_of_int 0;
  law_sin_zero : m_sin (f_of_int 0 : F) = inr (f_of_int 0);
  law_pow_zero : f_pow (f_of_int 0 : F) 2 = f_of_int 0;
  law_cos_finite : ∀ x : F, f_finite x = true →
    ∃ c, m_cos (f_radians x) = inr c ∧
         f_mul (f_mul c c) (f_of_int 0) = f_of_int 0;
  law_add_zero : f_add (f_of_int 0 : F) (f_of_int 0) = f_of_int 0;
  law_sqrt_zero : m_sqrt (f_of_int 0 : F) = inr (f_of_int 0);
  law_asin_zero : m_asin (f_of_int 0 : F) = inr (f_of_int 0);
  law_two_zero : f_mul (f_of_int 2 : F) (f_of_int 0) = f_of_int 0;
  law_radius_zero : f_mul (f_of_int 6371000 : F) (f_of_int 0) = f_of_int 0;
  law_zero_le_scale : ∀ r : F,
    f_leb (f_of_int 0) r = true →
    f_leb (f_of_int 0) (f_mul r (f_of_int 1000)) = true;
  law_sub_swap : ∀ x y : F,
    f_sub y x = f_neg (f_sub x y) ∨ f_sub y x = f_sub x y;
  law_radians_neg : ∀ x : F, f_radians (f_neg x) = f_neg (f_radians x);
  law_half_neg : ∀ x : F,
    f_div (f_neg x) (f_of_int 2) = f_neg (f_div x (f_of_int 2));
  law_sin_neg : ∀ x : F,
    m_sin (f_neg x) = match m_sin x with
                      | inl e => inl e
                      | inr y => inr (f_neg y)
                      end;
  law_pow_neg : ∀ x : F, f_pow (f_neg x) 2 = f_pow x 2;
  law_mul_comm : ∀ x y : F, f_mul x y = f_mul y x
}.

(** *** Exact real arithmetic *)

#[export] Instance R_PyMath : PyMath R := {|
  m_sin := λ x, inr (sin x);
  m_cos := λ x, inr (cos x);
  m_asin := λ x, if bool_decide (-1 <= x <= 1)%R then inr (asin x)
                 else inl ValueError;
  m_sqrt := λ x, if bool_decide (0 <= x)%R then inr (sqrt x)
                 else inl ValueError
|}.

#[export] Instance R_PyFloatSign : PyFloatSign R := {|
  f_neg := Ropp;
  f_finite := λ _, true
|}.

(** *** IEEE binary64

    Rocq's primitive floats are Python's: binary64, round to nearest even,
    with [sqrt] correctly rounded.  [sin], [cos], [asin] and [pow] come
    from the C library, which IEEE 754 does not fix: they are the fields of
    [Libm]. *)

Module Doubles.
Import PrimFloat.
Local Open Scope float_scope.

Class Libm : Type := {
  c_sin : float → float;
  c_cos : float → float;
  c_asin : float → float;
  c_pow : float → float → float
}.

(** [pi / 180], the factor of [math.radians]. *)
Definition degToRad : float := 0x1.1df46a2529d39p-6.

(** A Python int as a float, exact below [2^53]. *)
Definition of_int (z : BinNums.Z) : float :=
  if (z <? 0)%Z then - of_uint63 (Uint63.of_Z (- z))
  else of_uint63 (Uint63.of_Z z).

#[global] Instance Double_PyFloat `{Libm} : PyFloat float := {|
  f_of_int := of_int;
  f_add := add;
  f_sub := sub;
  f_mul := mul;
  f_div := div;
  f_pow := λ x n, c_pow x (of_int n);
  f_radians := λ x, x * degToRad;
  f_sin := c_sin;
  f_cos := c_cos;
  f_asin := c_asin;
  f_sqrt := sqrt;
  f_leb := leb;
  f_ltb := ltb
|}.

(** The check that [math] makes after calling the C function [f] at [x]:
    nan out of a number, or an infinity out of a finite number, is a
    "math domain error". *)
Definition comprobar (f : float → float) (x : float) : exn + float :=
  let r := f x in
  if is_nan r && negb (is_nan x) then inl ValueError
  else if is_infinity r && is_finite x then inl ValueError
  else inr r.

#[global] Instance Double_PyMath `{Libm} : PyMath float := {|
  m_sin := comprobar c_sin;
  m_cos := comprobar c_cos;
  m_asin := comprobar c_asin;
  m_sqrt := comprobar sqrt
|}.

(** Two intersections at valid coordinates, the second almost opposite the
    first on the globe: (66.06601767658108, 0.0) and
    (-66.06601764443907, 179.99999999108343). *)
Definition lat_norte : float := 0x1.08439a23477eap+6.
Definition lon_norte : float := 0.
Definition lat_sur : float := -0x1.08439a211f4c9p+6.
Definition lon_este : float := 0x1.67ffffffb3684p+7.
Definition dos_km : float := 2.

Definition coordenadas_validas (lat lon : float) : bool :=
  (-90 <=? lat) && (lat <=? 90) && (-180 <=? lon) && (lon <=? 180).

(** What the C library returns on the way from the first point to the
    second: the values of glibc 2.36 under CPython 3.11, and the nan that
    the C standard prescribes for [asin] outside [-1, 1]. *)
Record glibc_en_antipodas `{Libm} : Prop := {
  sin_dlat : c_sin (-0x1.272f90995695dp+0) = -0x1.d3f993f2f825fp-1;
  cos_lat_norte : c_cos 0x1.272f909a8afd3p+0 = 0x1.9f6b907459ffcp-2;
  cos_lat_sur : c_cos (-0x1.272f9098222e4p+0) = 0x1.9f6b907d29157p-2;
  sin_dlon : c_sin 0x1.921fb543ed437p+0 = 1;
  pow_sin_dlat : c_pow (-0x1.d3f993f2f825fp-1) 2 = 0x1.abbc428cccc11p-1;
  pow_sin_dlon : c_pow 1 2 = 1;
  asin_fuera : c_asin 0x1.0000000000001p+0 = nan
}.

(** A C library as far as the examples go: the values above, zero at
    zero, and nan as a placeholder at any other argument. *)
Definition libm_ejemplo : Libm := {|
  c_sin := λ x,
    if x =? -0x1.272f90995695dp+0 then -0x1.d3f993f2f825fp-1
    else if x =? 0x1.921fb543ed437p+0 then 1
    else if x =? 0 then x
    else nan;
  c_cos := λ x,
    if x =? 0x1.272f909a8afd3p+0 then 0x1.9f6b907459ffcp-2
    else if x =? -0x1.272f9098222e4p+0 then 0x1.9f6b907d29157p-2
    else if x =? 0 then 1
    else nan;
  c_asin := λ x, if x =? 0 then x else nan;
  c_pow := λ x y, if y =? 2 then x * x else nan
|}.

Definition nodo_norte : node float :=
  Node 1 lat_norte lon_norte None "intersection" [].
Definition nodo_antipoda : node float :=
  Node 2 lat_sur lon_este None "intersection" [].

Definition red_antipodas : dataset float :=
  {| description := [T "Red de calles"];
     nodes := [nodo_norte; nodo_antipoda];
     edges := [];
     meta :=
       {| city := "Culiacán, Sinaloa, México";
          source := "OpenStreetMap via OSMnx";
          extracted_date := "2024-01-15";
          total_nodes := 2;
          total_edges := 0;
          network_type := "drive";
          simplified := Some true;
          sample_size := None;
          center_lat := None;
          center_lon := None;
          radius_km := None;
          original_nodes := None;
          original_edges := None |} |}.

Definition mundo_antipodas : world float :=
  {| files := <["red.json" := red_antipodas]> ∅;
     stdout := [];
     rng := λ _, 0%nat |}.
End Doubles.

(** * Properties *)

(** ** The loops are filters *)

Section Loops.
Context {A : Type}.

Lemma foldl_append_filter (P : A → Prop) `{!∀ x, Decision (P x)}
    (p : A → bool) (l acc : list A) :
  (∀ x, p x = bool_decide (P x)) →
  foldl (λ acc x, if p x then acc ++ [x] else acc) acc l = acc ++ filter P l.
Proof.
  intros Hp. revert acc.
  induction l as [|x l IH]; intros acc; simpl.
  - by rewrite app_nil_r.
  - rewrite IH, Hp. rewrite filter_cons.
    destruct (decide (P x)) as [HP|HP].
    + rewrite bool_decide_eq_true_2 by done. by rewrite <- app_assoc.
    + by rewrite bool_decide_eq_false_2 by done.
Qed.
End Loops.

Section LoopFacts.
Context `{PyFloat F}.

Lemma aristas_muestra_filter (es : list (edge F)) (ids : gset Z) :
  aristas_muestra es ids = filter (ambos_en ids) es.
Proof.
  unfold aristas_muestra.
  rewrite (foldl_append_filter (ambos_en ids)); [done|].
  intros e. unfold ambos_en.
  destruct (decide (e_from e ∈ ids)), (decide (e_to e ∈ ids));
    repeat first [rewrite bool_decide_eq_true_2 by tauto
                 |rewrite bool_decide_eq_false_2 by tauto]; done.
Qed.


Lemma nodos_centro_filter (ns : list (node F)) (clat clon r : F) :
  nodos_centro ns clat clon r = filter (dentro clat clon r) ns.
Proof.
  unfold nodos_centro.
  rewrite (foldl_append_filter (dentro clat clon r)); [done|].
  intros n. unfold dentro. simpl.
  destruct (decide (f_leb (calcular_distancia clat clon (n_lat n) (n_lon n))
                          (f_mul r (f_of_int 1000)) = true)) as [E|E].
  - rewrite bool_decide_eq_true_2 by done. exact E.
  - rewrite bool_decide_eq_false_2 by done. by apply not_true_is_false.
Qed.
End LoopFacts.

(** ** The sampler *)

Section Sampler.
Context {F A : Type}.
Implicit Types (pool : list A) (w : world F).

(** One round of the pool loop: taking out position [j] and moving the
    last live element into the vacancy leaves the other live elements. *)
Lemma pool_round pool (j m : nat) (x y : A) :
  j < m → m ≤ length pool →
  pool !! j = Some x → pool !! (m - 1) = Some y →
  x :: take (m - 1) (<[j := y]> pool) ≡ₚ take m pool.
Proof.
  intros Hj Hm Hx Hy.
  replace m with (S (m - 1)) at 2 by lia.
  rewrite (take_S_r _ _ y) by done.
  destruct (decide (j = m - 1)) as [->|Hne].
  - rewrite list_insert_id by done.
    assert (x = y) by congruence. subst y.
    apply Permutation_cons_append.
  - rewrite take_insert_lt by lia.
    set (L := take (m - 1) pool).
    assert (HL : L !! j = Some x).
    { unfold L. rewrite lookup_take_lt by lia. done. }
    rewrite insert_take_drop by (apply lookup_lt_Some in HL; done).
    rewrite <- (take_drop_middle L j x HL) at 3.
    generalize (take j L) (drop (S j) L). intros l1 l2.
    rewrite <- app_assoc. simpl.
    rewrite (Permutation_app_comm l1 (x :: l2 ++ [y])). simpl.
    constructor.
    rewrite <- app_assoc. simpl.
    rewrite (Permutation_app_comm l1 (y :: l2)). simpl.
    by rewrite <- Permutation_middle.
Qed.

(** The loop never indexes out of range, leaves files and console alone,
    returns [k] elements, and these are a sub-multiset of the live pool. *)
Lemma sample_loop_spec (k : nat) : ∀ m pool w,
  k ≤ m → m ≤ length pool →
  ∃ l w', sample_loop k m pool w = (inr l, w') ∧
          files w' = files w ∧ stdout w' = stdout w ∧
          length l = k ∧ l ⊆+ take m pool.
Proof.
  induction k as [|k IH]; intros m pool w Hk Hm.
  - exists [], w. repeat split; try done. apply submseteq_nil_l.
  - assert (Hj : rng w 0 `mod` m < m) by (apply Nat.mod_upper_bound; lia).
    destruct (lookup_lt_is_Some_2 pool (rng w 0 `mod` m)) as [x Hx]; [lia|].
    destruct (lookup_lt_is_Some_2 pool (m - 1)) as [y Hy]; [lia|].
    set (w1 := World (files w) (stdout w) (λ i, rng w (S i))).
    destruct (IH (m - 1) (<[rng w 0 `mod` m := y]> pool) w1)
      as (l & w' & Hrun & Hf & Hs & Hlen & Hsub).
    { lia. }
    { rewrite length_insert. lia. }
    exists (x :: l), w'.
    split.
    { simpl. unfold bind at 1. unfold randbelow. fold w1.
      rewrite Hx, Hy. unfold bind. rewrite Hrun. done. }
    repeat split; try done.
    + simpl. by rewrite Hlen.
    + rewrite <- (pool_round pool _ m x y Hj Hm Hx Hy).
      by apply submseteq_skip.
Qed.

Lemma random_sample_spec (population : list A) (k : Z) w :
  (0 ≤ k ≤ Z.of_nat (length population))%Z →
  ∃ l w', random_sample population k w = (inr l, w') ∧
          files w' = files w ∧ stdout w' = stdout w ∧
          Z.of_nat (length l) = k ∧ l ⊆+ population.
Proof.
  intros Hk. unfold random_sample.
  rewrite bool_decide_eq_true_2 by done.
  destruct (sample_loop_spec (Z.to_nat k) (length population) population w)
    as (l & w' & Hrun & Hf & Hs & Hlen & Hsub); [lia|lia|].
  exists l, w'. repeat split; try done.
  - lia.
  - by rewrite firstn_all in Hsub.
Qed.

Lemma random_sample_negative (population : list A) (k : Z) w :
  (k < 0)%Z → random_sample population k w = (inl ValueError, w).
Proof.
  intros Hk. unfold random_sample.
  rewrite bool_decide_eq_false_2 by lia. done.
Qed.
End Sampler.

(** ** What a run leaves behind *)

Section Runs.
Context `{PyFloat F}.
Implicit Types (w : world F) (data : dataset F).

Lemma len_nil_iff {A} (l : list A) : len l = 0%Z ↔ l = [].
Proof.
  unfold len. destruct l; simpl; split; intros; try done; lia.
Qed.

Lemma truediv_run (a b : Z) w :
  truediv a b w =
    if bool_decide (b = 0%Z) then (inl ZeroDivisionError, w)
    else (inr (f_div (f_of_int a) (f_of_int b)), w).
Proof. unfold truediv. by destruct (bool_decide (b = 0%Z)). Qed.

Lemma bind_print {A} (l : fstring F) (k : unit → M F A) w :
  bind (print l) k w = k tt (World (files w) (stdout w ++ [l]) (rng w)).
Proof. done. Qed.

Lemma bind_json_load {A} path (k : dataset F → M F A) w data :
  files w !! path = Some data → bind (json_load path) k w = k data w.
Proof. intros E. unfold bind, json_load. by rewrite E. Qed.

Lemma bind_json_load_missing {A} path (k : dataset F → M F A) w :
  files w !! path = None →
  bind (json_load path) k w = (inl FileNotFoundError, w).
Proof. intros E. unfold bind, json_load. by rewrite E. Qed.

Lemma bind_json_dump {A} d path (k : unit → M F A) w :
  bind (json_dump d path) k w =
    k tt (World (<[path := d]> (files w)) (stdout w) (rng w)).
Proof. done. Qed.

Lemma bind_truediv {A} (a b : Z) (k : F → M F A) w :
  bind (truediv a b) k w =
    if bool_decide (b = 0%Z) then (inl ZeroDivisionError, w)
    else k (f_div (f_of_int a) (f_of_int b)) w.
Proof. unfold bind. rewrite truediv_run. by destruct (bool_decide _). Qed.

Lemma bind_inr {A B} (m : M F A) (k : A → M F B) w a w' :
  m w = (inr a, w') → bind m k w = k a w'.
Proof. intros E. unfold bind. by rewrite E. Qed.

Lemma bind_inl {A B} (m : M F A) (k : A → M F B) w e w' :
  m w = (inl e, w') → bind m k w = (inl e, w').
Proof. intros E. unfold bind. by rewrite E. Qed.

(** A run of the random pipeline on an existing input with a
    non-negative [max_nodos]: some sample [nodos] is drawn, the reduced
    dataset is written, and the statistics are printed unless the sample
    is empty. *)
Lemma calles_run w orig dest (max_nodos : Z) data :
  files w !! orig = Some data → (0 ≤ max_nodos)%Z →
  ∃ nodos : list (node F),
    len nodos = Z.min max_nodos (len (nodes data)) ∧
    nodos ⊆+ nodes data ∧
    archivos (crear_muestra_calles orig dest max_nodos) w =
      <[dest := muestra data max_nodos nodos
                  (aristas_muestra (edges data) (ids_nodos_muestra nodos))]>
        (files w) ∧
    resultado (crear_muestra_calles orig dest max_nodos) w =
      if bool_decide (nodos = []) then inl ZeroDivisionError else inr tt.
Proof.
  intros Hfile Hmax.
  unfold archivos, resultado, crear_muestra_calles.
  rewrite bind_print; cbv beta.
  rewrite (bind_json_load _ _ _ data) by done; cbv beta.
  do 3 (rewrite bind_print; cbv beta).
  set (w1 := World _ _ _).
  destruct (random_sample_spec (nodes data)
              (Z.min max_nodos (len (nodes data))) w1)
    as (nodos & w2 & Hrun & Hf & _ & Hlen & Hsub).
  { unfold len. lia. }
  rewrite (bind_inr _ _ _ nodos w2) by exact Hrun. cbv beta zeta.
  exists nodos.
  split; [exact Hlen|]. split; [exact Hsub|].
  rewrite bind_json_dump; cbv beta.
  do 4 (rewrite bind_print; cbv beta).
  rewrite bind_truediv.
  destruct (decide (nodos = [])) as [->|Hne].
  - rewrite !bool_decide_eq_true_2 by done. simpl. by rewrite Hf.
  - rewrite bool_decide_eq_false_2 by (by rewrite len_nil_iff).
    rewrite bind_print; cbv beta.
    rewrite bind_truediv.
    assert (nodes data ≠ []) as Hne'.
    { intros E. rewrite E in Hsub. by apply submseteq_nil_r in Hsub. }
    rewrite bool_decide_eq_false_2 by (by rewrite len_nil_iff).
    rewrite (bool_decide_eq_false_2 (nodos = [])) by done.
    simpl. by rewrite Hf.
Qed.

(** A run of the radius pipeline on an existing input. *)
Lemma centro_run w orig dest (centro_lat centro_lon radio_km : F) data :
  files w !! orig = Some data →
  let nodos := nodos_centro (nodes data) centro_lat centro_lon radio_km in
  archivos (crear_muestra_centro orig dest centro_lat centro_lon radio_km) w =
    <[dest := muestra_centro data centro_lat centro_lon radio_km nodos
                (aristas_centro (edges data) (ids_nodos_centro nodos))]>
      (files w) ∧
  resultado (crear_muestra_centro orig dest centro_lat centro_lon radio_km) w =
    if bool_decide (nodos = []) then inl ZeroDivisionError else inr tt.
Proof.
  intros Hfile nodos.
  unfold archivos, resultado, crear_muestra_centro.
  rewrite bind_print; cbv beta.
  rewrite (bind_json_load _ _ _ data) by done; cbv beta zeta.
  fold nodos.
  rewrite bind_json_dump; cbv beta.
  do 4 (rewrite bind_print; cbv beta).
  rewrite bind_truediv.
  destruct (decide (nodos = [])) as [E|Hne].
  - rewrite E. rewrite !bool_decide_eq_true_2 by done. done.
  - rewrite bool_decide_eq_false_2 by (by rewrite len_nil_iff).
    rewrite (bool_decide_eq_false_2 (nodos = [])) by done.
    done.
Qed.

(** With a negative [max_nodos] the random pipeline stops at the sampling
    step (or earlier, at the read), before [json.dump]. *)
Lemma calles_run_negative w orig dest (max_nodos : Z) :
  (max_nodos < 0)%Z →
  archivos (crear_muestra_calles orig dest max_nodos) w = files w ∧
  resultado (crear_muestra_calles orig dest max_nodos) w =
    match files w !! orig with
    | Some _ => inl ValueError
    | None => inl FileNotFoundError
    end.
Proof.
  intros Hmax.
  unfold archivos, resultado, crear_muestra_calles.
  rewrite bind_print; cbv beta.
  destruct (files w !! orig) as [data|] eqn:Hfile.
  - rewrite (bind_json_load _ _ _ data) by done; cbv beta.
    do 3 (rewrite bind_print; cbv beta).
    set (w1 := World _ _ _).
    rewrite (bind_inl _ _ _ ValueError w1).
    + done.
    + unfold nodos_muestra. apply random_sample_negative.
      unfold len. lia.
  - rewrite bind_json_load_missing by done. done.
Qed.
End Runs.

(** ** The claims that hold for every float arithmetic *)

Section Claims.
Context `{PyFloat F}.
Implicit Types (w : world F) (data d : dataset F).




(** C3, amended (sampler bound).  For a non-negative [max_nodos] the
    sampling step raises nothing and returns exactly
    [min(max_nodos, len(nodes))] nodes, drawn without replacement (a
    sub-multiset of the input); when [max_nodos >= len(nodes)] the result
    is the whole input, up to order. *)
Theorem sampler_bound (ns : list (node F)) (max_nodos : Z) w :
  (0 ≤ max_nodos)%Z →
  ∃ l w', nodos_muestra ns max_nodos w = (inr l, w') ∧
          len l = Z.min max_nodos (len ns) ∧
          l ⊆+ ns ∧
          ((len ns ≤ max_nodos)%Z → l ≡ₚ ns).
Proof.
  intros Hmax. unfold nodos_muestra.
  destruct (random_sample_spec ns (Z.min max_nodos (len ns)) w)
    as (l & w' & Hrun & _ & _ & Hlen & Hsub).
  { unfold len. lia. }
  exists l, w'. repeat split; try done.
  intros Hall. apply submseteq_length_Permutation; [done|].
  unfold len in *. lia.
Qed.

Lemma aristas_sin_nodos (es : list (edge F)) :
  aristas_muestra es (ids_nodos_muestra ([] : list (node F))) = [].
Proof.
  rewrite aristas_muestra_filter.
  induction es as [|e es IH]; [done|].
  rewrite filter_cons_False; [done|].
  unfold ambos_en, ids_nodos_muestra. simpl.
  intros [Hfrom _]. by apply not_elem_of_empty in Hfrom.
Qed.

Lemma aristas_centro_sin_nodos (es : list (edge F)) :
  aristas_centro es (ids_nodos_centro ([] : list (node F))) = [].
Proof. apply aristas_sin_nodos. Qed.

Lemma muestra_vacia (ns : list (node F)) (max_nodos : Z) (l : list (node F)) :
  (0 ≤ max_nodos)%Z → max_nodos = 0%Z ∨ ns = [] →
  len l = Z.min max_nodos (len ns) → l = [].
Proof.
  intros Hmax Hz Hlen. apply len_nil_iff. rewrite Hlen.
  destruct Hz as [->| ->]; unfold len; simpl; lia.
Qed.

(** C5 (density guard), evaluated.  The statistics divide
    [len(aristas)] by [len(nodos)] with no test on the divisor: a division
    by zero raises, and whenever the selection is empty each pipeline ends
    with [ZeroDivisionError] instead of reporting a density. *)
Theorem density_division_unguarded :
  (∀ (a : Z) w, truediv a 0 w = (inl ZeroDivisionError, w)) ∧
  (∀ w orig dest (max_nodos : Z) data,
     files w !! orig = Some data → (0 ≤ max_nodos)%Z →
     max_nodos = 0%Z ∨ nodes data = [] →
     resultado (crear_muestra_calles orig dest max_nodos) w
       = inl ZeroDivisionError) ∧
  (∀ w orig dest (centro_lat centro_lon radio_km : F) data,
     files w !! orig = Some data →
     nodos_centro (nodes data) centro_lat centro_lon radio_km = [] →
     resultado (crear_muestra_centro orig dest centro_lat centro_lon radio_km) w
       = inl ZeroDivisionError).
Proof.
  split; [|split].
  - intros a w. by rewrite truediv_run.
  - intros w orig dest max_nodos data Hfile Hmax Hz.
    destruct (calles_run w orig dest max_nodos data Hfile Hmax)
      as (nodos & Hlen & _ & _ & Hres).
    rewrite Hres, (muestra_vacia _ _ nodos Hmax Hz Hlen). done.
  - intros w orig dest clat clon r data Hfile Hsel.
    destruct (centro_run w orig dest clat clon r data Hfile) as [_ Hres].
    rewrite Hres, Hsel. done.
Qed.

(** C6 (empty selection), evaluated.  When the selection is empty each
    pipeline does write the empty dataset, with both counts zero, and
    then ends with [ZeroDivisionError] at the density line. *)
Theorem empty_selection_written_then_raises :
  (∀ w orig dest (max_nodos : Z) data,
     files w !! orig = Some data → (0 ≤ max_nodos)%Z →
     max_nodos = 0%Z ∨ nodes data = [] →
     (∃ d, archivos (crear_muestra_calles orig dest max_nodos) w !! dest = Some d ∧
           nodes d = [] ∧ edges d = [] ∧
           total_nodes (meta d) = 0%Z ∧ total_edges (meta d) = 0%Z) ∧
     resultado (crear_muestra_calles orig dest max_nodos) w
       = inl ZeroDivisionError) ∧
  (∀ w orig dest (centro_lat centro_lon radio_km : F) data,
     files w !! orig = Some data →
     nodos_centro (nodes data) centro_lat centro_lon radio_km = [] →
     (∃ d, archivos (crear_muestra_centro orig dest centro_lat centro_lon radio_km) w
             !! dest = Some d ∧
           nodes d = [] ∧ edges d = [] ∧
           total_nodes (meta d) = 0%Z ∧ total_edges (meta d) = 0%Z) ∧
     resultado (crear_muestra_centro orig dest centro_lat centro_lon radio_km) w
       = inl ZeroDivisionError).
Proof.
  split.
  - intros w orig dest max_nodos data Hfile Hmax Hz.
    destruct (calles_run w orig dest max_nodos data Hfile Hmax)
      as (nodos & Hlen & _ & Hfiles & Hres).
    rewrite (muestra_vacia _ _ nodos Hmax Hz Hlen) in Hfiles, Hres.
    split; [|by rewrite Hres].
    eexists. rewrite Hfiles, lookup_insert_eq. split; [done|].
    simpl. rewrite aristas_sin_nodos. done.
  - intros w orig dest clat clon r data Hfile Hsel.
    destruct (centro_run w orig dest clat clon r data Hfile) as [Hfiles Hres].
    rewrite Hsel in Hfiles, Hres.
    split; [|by rewrite Hres].
    eexists. rewrite Hfiles, lookup_insert_eq. split; [done|].
    simpl. rewrite aristas_centro_sin_nodos. done.
Qed.


(** C9 (radius monotonicity).  With the same centre, every node selected
    at radius [r1] is selected at any larger radius [r2]. *)
Theorem radius_monotone `{!PyFloatOrder F}
    (ns : list (node F)) (centro_lat centro_lon r1 r2 : F) :
  f_ltb r1 r2 = true →
  ∀ n, n ∈ nodos_centro ns centro_lat centro_lon r1 →
       n ∈ nodos_centro ns centro_lat centro_lon r2.
Proof.
  intros Hlt n. rewrite !nodos_centro_filter, !list_elem_of_filter.
  unfold dentro. intros [Hd Hin]. split; [|done].
  eapply f_leb_trans; [exact Hd|]. by apply f_mul_1000_mono.
Qed.

(** C10 (negative sample size).  With [max_nodos < 0] the random pipeline
    ends with an error before anything is written: the files are those it
    started from, and on a readable input the error is the [ValueError]
    of the sampling step. *)
Theorem negative_max_nodes_fails_before_write w orig dest (max_nodos : Z) :
  (max_nodos < 0)%Z →
  (∃ e, resultado (crear_muestra_calles orig dest max_nodos) w = inl e) ∧
  (∀ data, files w !! orig = Some data →
           resultado (crear_muestra_calles orig dest max_nodos) w = inl ValueError) ∧
  archivos (crear_muestra_calles orig dest max_nodos) w = files w.
Proof.
  intros Hmax.
  destruct (calles_run_negative w orig dest max_nodos Hmax) as [Hfiles Hres].
  split; [|split].
  - rewrite Hres. destruct (files w !! orig); eauto.
  - intros data Hfile. by rewrite Hres, Hfile.
  - done.
Qed.
End Claims.

(** ** Exact real arithmetic: the distance and the order laws *)

Section RealArithmetic.
Open Scope R_scope.

#[export] Instance R_PyFloatOrder : PyFloatOrder R.
Proof.
  split.
  - intros x y z Hxy Hyz. simpl in *.
    apply bool_decide_eq_true in Hxy, Hyz.
    apply bool_decide_eq_true. lra.
  - intros r1 r2 Hlt. simpl in *.
    apply bool_decide_eq_true in Hlt.
    apply bool_decide_eq_true. lra.
Qed.

Lemma powerRZ_2 (x : R) : powerRZ x 2 = x².
Proof. unfold Rsqr. simpl. ring. Qed.

Lemma calcular_distancia_R (lat1 lon1 lat2 lon2 : R) :
  calcular_distancia lat1 lon1 lat2 lon2 =
    6371000 *
    (2 * asin (sqrt ((sin ((lat2 - lat1) * (PI / 180) / 2))² +
                     cos (lat1 * (PI / 180)) * cos (lat2 * (PI / 180)) *
                     (sin ((lon2 - lon1) * (PI / 180) / 2))²))).
Proof.
  unfold calcular_distancia. cbn [f_of_int f_add f_sub f_mul f_div f_pow
    f_radians f_sin f_cos f_asin f_sqrt R_PyFloat].
  by rewrite !powerRZ_2.
Qed.

Lemma calcular_distancia_haversine (lat1 lon1 lat2 lon2 : R) :
  calcular_distancia lat1 lon1 lat2 lon2 =
    haversine 6371000 (deg lat1) (deg lon1) (deg lat2) (deg lon2).
Proof.
  rewrite calcular_distancia_R. unfold haversine, deg.
  replace ((lat2 * PI / 180 - lat1 * PI / 180) / 2)
    with ((lat2 - lat1) * (PI / 180) / 2) by field.
  replace ((lon2 * PI / 180 - lon1 * PI / 180) / 2)
    with ((lon2 - lon1) * (PI / 180) / 2) by field.
  replace (lat1 * PI / 180) with (lat1 * (PI / 180)) by field.
  replace (lat2 * PI / 180) with (lat2 * (PI / 180)) by field.
  ring.
Qed.

Lemma calcular_distancia_self (lat lon : R) :
  calcular_distancia lat lon lat lon = 0.
Proof.
  rewrite calcular_distancia_R.
  replace ((lat - lat) * (PI / 180) / 2) with 0 by field.
  replace ((lon - lon) * (PI / 180) / 2) with 0 by field.
  rewrite sin_0, Rsqr_0, Rmult_0_r, Rplus_0_r, sqrt_0, asin_0. ring.
Qed.

(** The argument of [sqrt] and then [asin] stays in [0, 1]: in exact
    arithmetic neither [math.sqrt] nor [math.asin] is called outside its
    domain, whatever the coordinates. *)
Lemma sin_sqr_half (x : R) : (sin (x / 2))² = (1 - cos x) / 2.
Proof.
  replace x with (2 * (x / 2)) at 2 by field.
  rewrite cos_2a_sin. unfold Rsqr. field.
Qed.

Lemma haversine_argument_range (φ1 φ2 δ : R) :
  0 <= (sin ((φ2 - φ1) / 2))² + cos φ1 * cos φ2 * (sin (δ / 2))² <= 1.
Proof.
  rewrite !sin_sqr_half, cos_minus.
  pose proof (COS_bound δ) as [Hd1 Hd2].
  pose proof (COS_bound (φ2 - φ1)) as [Hu1 Hu2].
  pose proof (COS_bound (φ2 + φ1)) as [Hv1 Hv2].
  rewrite cos_minus in Hu1, Hu2. rewrite cos_plus in Hv1, Hv2.
  set (p := cos φ1 * cos φ2).
  set (q := sin φ1 * sin φ2).
  replace (cos φ2 * cos φ1) with p in * by (unfold p; ring).
  replace (sin φ2 * sin φ1) with q in * by (unfold q; ring).
  set (t := (1 - cos δ) / 2).
  assert (0 <= t <= 1) as [Ht0 Ht1] by (unfold t; lra).
  clearbody p q t.
  split; nra.
Qed.

Lemma calcular_distancia_domain (lat1 lon1 lat2 lon2 : R) :
  let a := (sin ((lat2 - lat1) * (PI / 180) / 2))² +
           cos (lat1 * (PI / 180)) * cos (lat2 * (PI / 180)) *
           (sin ((lon2 - lon1) * (PI / 180) / 2))² in
  0 <= a <= 1 ∧ 0 <= sqrt a <= 1.
Proof.
  intros a.
  assert (Ha : 0 <= a <= 1).
  { unfold a.
    replace ((lat2 - lat1) * (PI / 180) / 2)
      with ((lat2 * (PI / 180) - lat1 * (PI / 180)) / 2) by field.
    apply haversine_argument_range. }
  split; [exact Ha|]. split; [apply sqrt_pos|].
  rewrite <- sqrt_1. apply sqrt_le_1_alt. lra.
Qed.
End RealArithmetic.

(** ** The radius reducer with the domain errors of [math] *)

Lemma filter_ext_in {A} (P Q : A → Prop)
    `{!∀ x, Decision (P x), !∀ x, Decision (Q x)} (l : list A) :
  (∀ x, x ∈ l → (P x ↔ Q x)) → filter P l = filter Q l.
Proof.
  induction l as [|x l IH]; intros Hall; [done|].
  assert (filter P l = filter Q l) as E.
  { apply IH. intros y Hy. apply Hall. by right. }
  destruct (decide (P x)) as [HP|HP].
  - rewrite !filter_cons_True; [by rewrite E|by apply (Hall x); [left|]|done].
  - rewrite !filter_cons_False; [done| |done].
    intros HQ. apply HP. apply (Hall x); [left|done].
Qed.

Section PyReducer.
Context `{PyMath F}.
Implicit Types (w : world F) (data : dataset F) (n : node F).

Lemma py_loop_acc (ns : list (node F)) (clat clon r : F) : ∀ acc,
  foldlE (λ nodos nodo,
            doe distancia <-
              Py.calcular_distancia clat clon (n_lat nodo) (n_lon nodo);
            inr (if f_leb distancia (f_mul r (f_of_int 1000))
                 then nodos ++ [nodo]
                 else nodos))
         acc ns
  = match Py.nodos_centro ns clat clon r with
    | inl e => inl e
    | inr sel => inr (acc ++ sel)
    end.
Proof.
  unfold Py.nodos_centro.
  induction ns as [|n ns IH]; intros acc; simpl.
  - by rewrite app_nil_r.
  - destruct (Py.calcular_distancia clat clon (n_lat n) (n_lon n)) as [e|d];
      simpl; [done|].
    rewrite (IH (if f_leb d (f_mul r (f_of_int 1000)) then acc ++ [n] else acc)).
    rewrite (IH (if f_leb d (f_mul r (f_of_int 1000)) then [n] else [])).
    destruct (foldlE _ [] ns) as [e|sel]; [done|].
    destruct (f_leb d (f_mul r (f_of_int 1000))); simpl.
    + by rewrite <- app_assoc.
    + done.
Qed.

(** One turn of the node loop. *)
Lemma py_nodos_centro_cons n (ns : list (node F)) (clat clon r : F) :
  Py.nodos_centro (n :: ns) clat clon r =
    match Py.calcular_distancia clat clon (n_lat n) (n_lon n) with
    | inl e => inl e
    | inr d =>
        match Py.nodos_centro ns clat clon r with
        | inl e => inl e
        | inr sel =>
            inr (if f_leb d (f_mul r (f_of_int 1000)) then n :: sel else sel)
        end
    end.
Proof.
  unfold Py.nodos_centro at 1. simpl.
  destruct (Py.calcular_distancia clat clon (n_lat n) (n_lon n)) as [e|d];
    simpl; [done|].
  rewrite py_loop_acc.
  destruct (Py.nodos_centro ns clat clon r) as [e|sel]; [done|].
  by destruct (f_leb d (f_mul r (f_of_int 1000))).
Qed.

(** The node loop returns when every distance is computed, and then it is
    the stable filter; it raises what the first failing distance raises. *)
Lemma py_nodos_centro_spec (ns : list (node F)) (clat clon r : F) :
  match Py.nodos_centro ns clat clon r with
  | inr sel =>
      (∀ n, n ∈ ns →
            ∃ d, Py.calcular_distancia clat clon (n_lat n) (n_lon n) = inr d) ∧
      sel = filter (Py.dentro clat clon r) ns
  | inl e =>
      ∃ l1 n l2,
        ns = l1 ++ n :: l2 ∧
        (∀ m, m ∈ l1 →
              ∃ d, Py.calcular_distancia clat clon (n_lat m) (n_lon m) = inr d) ∧
        Py.calcular_distancia clat clon (n_lat n) (n_lon n) = inl e
  end.
Proof.
  induction ns as [|n ns IH].
  - cbn. split; [|done]. intros n Hn. by apply not_elem_of_nil in Hn.
  - rewrite py_nodos_centro_cons.
    destruct (Py.calcular_distancia clat clon (n_lat n) (n_lon n)) as [e|d] eqn:Hd.
    { exists [], n, ns. split; [done|]. split; [|done].
      intros m Hm. by apply not_elem_of_nil in Hm. }
    destruct (Py.nodos_centro ns clat clon r) as [e|sel].
    { destruct IH as (l1 & m & l2 & -> & Hl1 & Hm).
      exists (n :: l1), m, l2. split; [done|]. split; [|done].
      intros k Hk. apply elem_of_cons in Hk as [->|Hk]; eauto. }
    destruct IH as [Hall ->]. split.
    { intros k Hk. apply elem_of_cons in Hk as [->|Hk]; eauto. }
    destruct (f_leb d (f_mul r (f_of_int 1000))) eqn:Hle.
    + rewrite filter_cons_True; [done|]. exists d. done.
    + rewrite filter_cons_False; [done|].
      intros (d' & Hd' & Hle'). congruence.
Qed.

Lemma py_nodos_centro_returns (ns : list (node F)) (clat clon r : F) :
  (∀ n, n ∈ ns →
        ∃ d, Py.calcular_distancia clat clon (n_lat n) (n_lon n) = inr d) →
  Py.nodos_centro ns clat clon r = inr (filter (Py.dentro clat clon r) ns).
Proof.
  intros Hall. pose proof (py_nodos_centro_spec ns clat clon r) as Hspec.
  destruct (Py.nodos_centro ns clat clon r) as [e|sel].
  - destruct Hspec as (l1 & n & l2 & -> & _ & Hn).
    destruct (Hall n) as [d Hd]; [|congruence].
    apply elem_of_app. right. left.
  - by destruct Hspec as [_ ->].
Qed.

(** A run of the radius reducer on a readable input: an exception of the
    node loop ends it before [json.dump]. *)
Lemma py_centro_run w orig dest (centro_lat centro_lon radio_km : F) data :
  files w !! orig = Some data →
  match Py.nodos_centro (nodes data) centro_lat centro_lon radio_km with
  | inl e =>
      archivos (Py.crear_muestra_centro orig dest centro_lat centro_lon radio_km) w
        = files w ∧
      resultado (Py.crear_muestra_centro orig dest centro_lat centro_lon radio_km) w
        = inl e
  | inr nodos =>
      archivos (Py.crear_muestra_centro orig dest centro_lat centro_lon radio_km) w
        = <[dest := muestra_centro data centro_lat centro_lon radio_km nodos
                      (aristas_centro (edges data) (ids_nodos_centro nodos))]>
            (files w) ∧
      resultado (Py.crear_muestra_centro orig dest centro_lat centro_lon radio_km) w
        = if bool_decide (nodos = []) then inl ZeroDivisionError else inr tt
  end.
Proof.
  intros Hfile.
  unfold archivos, resultado, Py.crear_muestra_centro.
  rewrite bind_print; cbv beta.
  rewrite (bind_json_load _ _ _ data) by done; cbv beta zeta.
  set (w1 := World _ _ _).
  destruct (Py.nodos_centro (nodes data) centro_lat centro_lon radio_km)
    as [e|nodos].
  { by rewrite (bind_inl _ _ w1 e w1). }
  rewrite (bind_inr _ _ w1 nodos w1) by done.
  rewrite bind_json_dump; cbv beta.
  do 4 (rewrite bind_print; cbv beta).
  rewrite bind_truediv.
  destruct (decide (nodos = [])) as [E|Hne].
  - rewrite E. rewrite !bool_decide_eq_true_2 by done. done.
  - rewrite bool_decide_eq_false_2 by (by rewrite len_nil_iff).
    rewrite (bool_decide_eq_false_2 (nodos = [])) by done.
    done.
Qed.

Lemma py_centro_run_missing w orig dest (centro_lat centro_lon radio_km : F) :
  files w !! orig = None →
  Py.crear_muestra_centro orig dest centro_lat centro_lon radio_km w =
  crear_muestra_centro orig dest centro_lat centro_lon radio_km w.
Proof.
  intros Hfile. unfold Py.crear_muestra_centro, crear_muestra_centro.
  rewrite !bind_print; cbv beta.
  by rewrite !bind_json_load_missing.
Qed.

(** *** What the wrappers return is what the C functions return *)

Context `{!PyMathSpec F}.

Lemma py_distancia_value (lat1 lon1 lat2 lon2 d : F) :
  Py.calcular_distancia lat1 lon1 lat2 lon2 = inr d →
  d = calcular_distancia lat1 lon1 lat2 lon2.
Proof.
  unfold Py.calcular_distancia, calcular_distancia. cbv zeta.
  destruct (m_sin (f_div (f_radians (f_sub lat2 lat1)) (f_of_int 2)))
    as [?|s1] eqn:E1; [done|]. apply m_sin_value in E1 as ->.
  destruct (m_cos (f_radians lat1)) as [?|c1] eqn:E2; [done|].
  apply m_cos_value in E2 as ->.
  destruct (m_cos (f_radians lat2)) as [?|c2] eqn:E3; [done|].
  apply m_cos_value in E3 as ->.
  destruct (m_sin (f_div (f_radians (f_sub lon2 lon1)) (f_of_int 2)))
    as [?|s2] eqn:E4; [done|]. apply m_sin_value in E4 as ->.
  cbn [bindE].
  destruct (m_sqrt _) as [?|raiz] eqn:E5; [done|].
  apply m_sqrt_value in E5 as ->. cbn [bindE].
  destruct (m_asin _) as [?|arco] eqn:E6; [done|].
  apply m_asin_value in E6 as ->. cbn [bindE].
  by intros [= <-].
Qed.

Lemma py_distancia_error (lat1 lon1 lat2 lon2 : F) e :
  Py.calcular_distancia lat1 lon1 lat2 lon2 = inl e → e = ValueError.
Proof.
  unfold Py.calcular_distancia. cbv zeta.
  destruct (m_sin (f_div (f_radians (f_sub lat2 lat1)) (f_of_int 2)))
    as [?|s1] eqn:E1.
  { apply m_sin_error in E1 as ->. by intros [= <-]. }
  destruct (m_cos (f_radians lat1)) as [?|c1] eqn:E2.
  { apply m_cos_error in E2 as ->. by intros [= <-]. }
  destruct (m_cos (f_radians lat2)) as [?|c2] eqn:E3.
  { apply m_cos_error in E3 as ->. by intros [= <-]. }
  destruct (m_sin (f_div (f_radians (f_sub lon2 lon1)) (f_of_int 2)))
    as [?|s2] eqn:E4.
  { apply m_sin_error in E4 as ->. by intros [= <-]. }
  cbn [bindE].
  destruct (m_sqrt _) as [?|raiz] eqn:E5.
  { apply m_sqrt_error in E5 as ->. by intros [= <-]. }
  cbn [bindE].
  destruct (m_asin _) as [?|arco] eqn:E6.
  { apply m_asin_error in E6 as ->. by intros [= <-]. }
  done.
Qed.

Lemma py_nodos_centro_error (ns : list (node F)) (clat clon r : F) e :
  Py.nodos_centro ns clat clon r = inl e → e = ValueError.
Proof.
  intros He. pose proof (py_nodos_centro_spec ns clat clon r) as Hspec.
  rewrite He in Hspec. destruct Hspec as (l1 & n & l2 & _ & _ & Hn).
  by apply py_distancia_error in Hn.
Qed.

(** When the node loop returns, it returns what the loop with total math
    functions does. *)
Lemma py_nodos_centro_value (ns : list (node F)) (clat clon r : F) sel :
  Py.nodos_centro ns clat clon r = inr sel →
  sel = nodos_centro ns clat clon r.
Proof.
  intros Hsel. pose proof (py_nodos_centro_spec ns clat clon r) as Hspec.
  rewrite Hsel in Hspec. destruct Hspec as [Hall ->].
  rewrite nodos_centro_filter.
  apply filter_ext_in. intros n Hn.
  destruct (Hall n Hn) as [d Hd].
  pose proof (py_distancia_value _ _ _ _ _ Hd) as Hv.
  unfold Py.dentro, dentro. rewrite Hd, <- Hv. split.
  - by intros (d' & [= <-] & Hle).
  - eauto.
Qed.
End PyReducer.

(** ** The distance under the laws of the arithmetic *)

Section DistanceLaws.
Context `{PyMathLaws F} `{!PyMathSpec F}.

Lemma py_distancia_self (lat lon : F) :
  f_finite lat = true → f_finite lon = true →
  Py.calcular_distancia lat lon lat lon = inr (f_of_int 0).
Proof.
  intros Hlat Hlon. unfold Py.calcular_distancia. cbv zeta.
  rewrite !law_sub_self by done.
  rewrite law_radians_zero, law_half_zero, law_sin_zero. cbn [bindE].
  destruct (law_cos_finite lat Hlat) as (c & Hc & Hz).
  rewrite Hc. cbn [bindE].
  rewrite law_pow_zero, Hz, law_add_zero, law_sqrt_zero. cbn [bindE].
  rewrite law_asin_zero. cbn [bindE].
  by rewrite law_two_zero, law_radius_zero.
Qed.

Lemma sin_half_swap (x y : F) :
  match m_sin (f_div (f_radians (f_sub y x)) (f_of_int 2)),
        m_sin (f_div (f_radians (f_sub x y)) (f_of_int 2)) with
  | inl e, inl e' => e = e'
  | inr s, inr s' => f_pow s 2 = f_pow s' 2
  | _, _ => False
  end.
Proof.
  destruct (law_sub_swap x y) as [-> | ->].
  - rewrite law_radians_neg, law_half_neg, law_sin_neg.
    destruct (m_sin _) as [e|s]; [done|]. apply law_pow_neg.
  - by destruct (m_sin _).
Qed.

Lemma py_distancia_sym (lat1 lon1 lat2 lon2 : F) :
  Py.calcular_distancia lat1 lon1 lat2 lon2 =
  Py.calcular_distancia lat2 lon2 lat1 lon1.
Proof.
  unfold Py.calcular_distancia. cbv zeta.
  pose proof (sin_half_swap lat1 lat2) as Hlat.
  pose proof (sin_half_swap lon1 lon2) as Hlon.
  revert Hlat Hlon.
  destruct (m_sin (f_div (f_radians (f_sub lat2 lat1)) (f_of_int 2)))
    as [e1|s1] eqn:E1;
  destruct (m_sin (f_div (f_radians (f_sub lat1 lat2)) (f_of_int 2)))
    as [e1'|s1'] eqn:E1'; try done;
  destruct (m_sin (f_div (f_radians (f_sub lon2 lon1)) (f_of_int 2)))
    as [e2|s2] eqn:E2;
  destruct (m_sin (f_div (f_radians (f_sub lon1 lon2)) (f_of_int 2)))
    as [e2'|s2'] eqn:E2'; try done;
  destruct (m_cos (f_radians lat1)) as [e3|c1] eqn:E3;
  destruct (m_cos (f_radians lat2)) as [e4|c2] eqn:E4;
  intros Hlat Hlon; cbn [bindE];
  repeat match goal with
         | E : m_sin _ = inl _ |- _ => apply m_sin_error in E
         | E : m_cos _ = inl _ |- _ => apply m_cos_error in E
         end;
  subst; try done.
  by rewrite Hlat, Hlon, (law_mul_comm c1 c2).
Qed.
End DistanceLaws.

(** ** Exact real arithmetic satisfies the laws, and never leaves the
    domains *)

Section RealMath.
Open Scope R_scope.

#[export] Instance R_PyMathSpec : PyMathSpec R.
Proof.
  split; simpl.
  - by intros x y [= <-].
  - by intros x y [= <-].
  - intros x y. case_bool_decide; [by intros [= <-]|done].
  - intros x y. case_bool_decide; [by intros [= <-]|done].
  - done.
  - done.
  - intros x e. case_bool_decide; [done|by intros [= <-]].
  - intros x e. case_bool_decide; [done|by intros [= <-]].
Qed.

#[export] Instance R_PyMathLaws : PyMathLaws R.
Proof.
  split; simpl.
  - intros x _. ring.
  - ring.
  - field.
  - by rewrite sin_0.
  - ring.
  - intros x _. eexists. split; [done|]. ring.
  - ring.
  - rewrite bool_decide_eq_true_2 by lra. by rewrite sqrt_0.
  - rewrite bool_decide_eq_true_2 by lra. by rewrite asin_0.
  - ring.
  - ring.
  - intros r Hr. apply bool_decide_eq_true in Hr.
    apply bool_decide_eq_true. lra.
  - intros x y. left. ring.
  - intros x. ring.
  - intros x. field.
  - intros x. by rewrite sin_neg.
  - intros x. ring.
  - intros x y. ring.
Qed.

(** In exact arithmetic [math.sqrt] and [math.asin] are never called
    outside their domain: the function returns, for all coordinates. *)
Lemma py_distancia_R (lat1 lon1 lat2 lon2 : R) :
  Py.calcular_distancia lat1 lon1 lat2 lon2 =
    inr (calcular_distancia lat1 lon1 lat2 lon2).
Proof.
  destruct (calcular_distancia_domain lat1 lon1 lat2 lon2) as [Ha Hs].
  cbv zeta in Ha, Hs.
  unfold Py.calcular_distancia, calcular_distancia.
  cbn [f_of_int f_add f_sub f_mul f_div f_pow f_radians f_sin f_cos f_asin
       f_sqrt R_PyFloat m_sin m_cos m_asin m_sqrt R_PyMath bindE].
  rewrite !powerRZ_2.
  rewrite bool_decide_eq_true_2 by tauto. cbn [bindE].
  rewrite bool_decide_eq_true_2 by lra. done.
Qed.

Lemma py_nodos_centro_R (ns : list (node R)) (clat clon r : R) :
  Py.nodos_centro ns clat clon r = inr (nodos_centro ns clat clon r).
Proof.
  assert (Py.nodos_centro ns clat clon r
          = inr (filter (Py.dentro clat clon r) ns)) as Hret.
  { apply py_nodos_centro_returns. intros n _. eexists. apply py_distancia_R. }
  rewrite Hret. f_equal. by apply py_nodos_centro_value.
Qed.
End RealMath.

(** ** IEEE binary64: the near-antipodal pair *)

Module DoublesFacts.
Import PrimFloat Doubles.
Local Open Scope float_scope.

Lemma comprobar_value (f : float → float) (x y : float) :
  comprobar f x = inr y → y = f x.
Proof.
  unfold comprobar.
  destruct (is_nan (f x) && negb (is_nan x)); [done|].
  destruct (is_infinity (f x) && is_finite x); [done|].
  by intros [= <-].
Qed.

Lemma comprobar_error (f : float → float) (x : float) e :
  comprobar f x = inl e → e = ValueError.
Proof.
  unfold comprobar.
  destruct (is_nan (f x) && negb (is_nan x)); [by intros [= <-]|].
  destruct (is_infinity (f x) && is_finite x); [by intros [= <-]|].
  done.
Qed.

#[global] Instance Double_PyMathSpec `{Libm} : PyMathSpec float.
Proof.
  split; simpl; eauto using comprobar_value, comprobar_error.
Qed.

Lemma libm_ejemplo_glibc : @glibc_en_antipodas libm_ejemplo.
Proof. split; reflexivity. Qed.

(** Both points are valid coordinates. *)
Lemma antipodas_validas :
  coordenadas_validas lat_norte lon_norte = true ∧
  coordenadas_validas lat_sur lon_este = true.
Proof. split; reflexivity. Qed.

Lemma comprobar_number (f : float → float) (x y : float) :
  f x = y → is_nan y = false → is_infinity y = false →
  comprobar f x = inr y.
Proof.
  intros Hf Hnan Hinf. unfold comprobar. by rewrite Hf, Hnan, Hinf.
Qed.

Lemma comprobar_nan (f : float → float) (x : float) :
  f x = nan → is_nan x = false → comprobar f x = inl ValueError.
Proof.
  intros Hf Hnan. unfold comprobar. by rewrite Hf, Hnan.
Qed.

(** From the first point to the second: [a] is [0x1.0000000000002p+0],
    that is 1.0000000000000004, its square root is the float next above 1,
    and [math.asin] raises. *)
Lemma distancia_antipodas `{Libm} :
  glibc_en_antipodas →
  Py.calcular_distancia lat_norte lon_norte lat_sur lon_este = inl ValueError.
Proof.
  intros [H1 H2 H3 H4 H5 H6 H7].
  unfold Py.calcular_distancia. cbv zeta.
  assert (f_div (f_radians (f_sub lat_sur lat_norte)) (f_of_int 2)
          = -0x1.272f90995695dp+0) as -> by reflexivity.
  assert (f_radians lat_norte = 0x1.272f909a8afd3p+0) as -> by reflexivity.
  assert (f_radians lat_sur = -0x1.272f9098222e4p+0) as -> by reflexivity.
  assert (f_div (f_radians (f_sub lon_este lon_norte)) (f_of_int 2)
          = 0x1.921fb543ed437p+0) as -> by reflexivity.
  cbn [m_sin m_cos m_sqrt m_asin Double_PyMath f_pow f_add f_mul f_of_int
       Double_PyFloat].
  rewrite (comprobar_number c_sin _ _ H1) by reflexivity. cbn [bindE].
  rewrite (comprobar_number c_cos _ _ H2) by reflexivity. cbn [bindE].
  rewrite (comprobar_number c_cos _ _ H3) by reflexivity. cbn [bindE].
  rewrite (comprobar_number c_sin _ _ H4) by reflexivity. cbn [bindE].
  change (of_int 2) with 2. rewrite H5, H6.
  assert (comprobar sqrt
            (0x1.abbc428cccc11p-1 +
             0x1.9f6b907459ffcp-2 * 0x1.9f6b907d29157p-2 * 1)
          = inr 0x1.0000000000001p+0) as -> by reflexivity.
  cbn [bindE].
  by rewrite (comprobar_nan c_asin _ H7).
Qed.

(** The value under the square root there. *)
Example a_antipodas :
  0x1.abbc428cccc11p-1 + 0x1.9f6b907459ffcp-2 * 0x1.9f6b907d29157p-2 * 1
    = 0x1.0000000000002p+0 ∧
  (1 <? 0x1.0000000000002p+0) = true ∧
  sqrt 0x1.0000000000002p+0 = 0x1.0000000000001p+0.
Proof. repeat split. Qed.

(** The distance from the first point to itself is 0. *)
Example distancia_norte_norte :
  @Py.calcular_distancia float (@Double_PyFloat libm_ejemplo)
    (@Double_PyMath libm_ejemplo) lat_norte lon_norte lat_norte lon_norte
  = inr 0.
Proof. reflexivity. Qed.

(** Any input that holds the second point ends the node loop around the
    first with [ValueError], and the run with it, before [json.dump]. *)
Lemma lazo_antipodas `{Libm} (ns : list (node float)) (radio_km : float) :
  glibc_en_antipodas → nodo_antipoda ∈ ns →
  Py.nodos_centro ns lat_norte lon_norte radio_km = inl ValueError.
Proof.
  intros Hlibm Hin.
  pose proof (py_nodos_centro_spec ns lat_norte lon_norte radio_km) as Hspec.
  destruct (Py.nodos_centro ns lat_norte lon_norte radio_km) as [e|sel] eqn:E.
  - by apply py_nodos_centro_error in E as ->.
  - destruct Hspec as [Hall _]. destruct (Hall _ Hin) as [d Hd].
    cbn [n_lat n_lon nodo_antipoda] in Hd.
    rewrite (distancia_antipodas Hlibm) in Hd. done.
Qed.

Lemma run_antipodas `{Libm} (w : world float) orig dest
    (data : dataset float) (radio_km : float) :
  glibc_en_antipodas →
  files w !! orig = Some data → nodo_antipoda ∈ nodes data →
  resultado (Py.crear_muestra_centro orig dest lat_norte lon_norte radio_km) w
    = inl ValueError ∧
  archivos (Py.crear_muestra_centro orig dest lat_norte lon_norte radio_km) w
    = files w.
Proof.
  intros Hlibm Hfile Hin.
  pose proof (py_centro_run w orig dest lat_norte lon_norte radio_km data Hfile)
    as Hrun.
  rewrite (lazo_antipodas _ _ Hlibm Hin) in Hrun. tauto.
Qed.
End DoublesFacts.

(** ** The claims on the distance and the radius filter *)

Section DomainErrors.

(** C4 (radius filter).  The node loop of [crear_muestra_centro] is the
    stable filter on "distance to the centre [<=] [radio_km * 1000]" on
    the inputs on which every distance is computed: it then returns the
    input nodes within the radius, boundary included, each as often as it
    occurs and in the order of the input.  When [calcular_distancia] raises
    at a node, the loop ends with that exception and nothing is selected.
    This happens at valid coordinates: in binary64, with the centre at
    (66.06601767658108, 0.0) and a node at
    (-66.06601764443907, 179.99999999108343), the value under the square
    root is 1.0000000000000004 and [math.asin] raises [ValueError]; every
    run whose input holds that node ends with it and writes nothing. *)
Theorem radius_filter_aborts_on_domain_error :
  (∀ (F : Type) (HF : PyFloat F) (HM : PyMath F)
     (ns : list (node F)) (centro_lat centro_lon radio_km : F),
     match Py.nodos_centro ns centro_lat centro_lon radio_km with
     | inr sel =>
         (∀ n, n ∈ ns →
               ∃ d, Py.calcular_distancia centro_lat centro_lon
                      (n_lat n) (n_lon n) = inr d) ∧
         sel = filter (Py.dentro centro_lat centro_lon radio_km) ns ∧
         (∀ n, n ∈ sel ↔
               n ∈ ns ∧
               ∃ d, Py.calcular_distancia centro_lat centro_lon
                      (n_lat n) (n_lon n) = inr d ∧
                    f_leb d (f_mul radio_km (f_of_int 1000)) = true) ∧
         sublist sel ns
     | inl e =>
         ∃ n, n ∈ ns ∧
              Py.calcular_distancia centro_lat centro_lon (n_lat n) (n_lon n)
                = inl e
     end) ∧
  (∀ L : Doubles.Libm, Doubles.glibc_en_antipodas →
     Doubles.coordenadas_validas Doubles.lat_norte Doubles.lon_norte = true ∧
     Doubles.coordenadas_validas Doubles.lat_sur Doubles.lon_este = true ∧
     Py.calcular_distancia Doubles.lat_norte Doubles.lon_norte
       Doubles.lat_sur Doubles.lon_este = inl ValueError ∧
     ∀ (w : world PrimFloat.float) orig dest (data : dataset PrimFloat.float)
       (radio_km : PrimFloat.float),
       files w !! orig = Some data → Doubles.nodo_antipoda ∈ nodes data →
       Py.nodos_centro (nodes data) Doubles.lat_norte Doubles.lon_norte radio_km
         = inl ValueError ∧
       resultado (Py.crear_muestra_centro orig dest
                    Doubles.lat_norte Doubles.lon_norte radio_km) w
         = inl ValueError ∧
       archivos (Py.crear_muestra_centro orig dest
                   Doubles.lat_norte Doubles.lon_norte radio_km) w
         = files w).
Proof.
  split.
  - intros F HF HM ns clat clon r.
    pose proof (py_nodos_centro_spec ns clat clon r) as Hspec.
    destruct (Py.nodos_centro ns clat clon r) as [e|sel].
    + destruct Hspec as (l1 & n & l2 & -> & _ & Hn).
      exists n. split; [|done]. apply elem_of_app. right. left.
    + destruct Hspec as [Hall ->]. split; [done|]. split; [done|]. split.
      * intros n. by rewrite list_elem_of_filter, (comm and).
      * apply sublist_filter.
  - intros L Hlibm.
    destruct DoublesFacts.antipodas_validas as [Hv1 Hv2].
    split; [done|]. split; [done|].
    split; [by apply DoublesFacts.distancia_antipodas|].
    intros w orig dest data radio_km Hfile Hin.
    split; [by apply DoublesFacts.lazo_antipodas|].
    by apply (DoublesFacts.run_antipodas w orig dest data).
Qed.

Lemma radius_filter_aborts_witness :
  @Py.nodos_centro PrimFloat.float
    (@Doubles.Double_PyFloat Doubles.libm_ejemplo)
    (@Doubles.Double_PyMath Doubles.libm_ejemplo)
    (nodes Doubles.red_antipodas) Doubles.lat_norte Doubles.lon_norte
    Doubles.dos_km = inl ValueError ∧
  archivos (@Py.crear_muestra_centro PrimFloat.float
              (@Doubles.Double_PyFloat Doubles.libm_ejemplo)
              (@Doubles.Double_PyMath Doubles.libm_ejemplo)
              "red.json" "centro.json"
              Doubles.lat_norte Doubles.lon_norte Doubles.dos_km)
    Doubles.mundo_antipodas
    = files Doubles.mundo_antipodas.
Proof.
  destruct (proj2 radius_filter_aborts_on_domain_error
              Doubles.libm_ejemplo DoublesFacts.libm_ejemplo_glibc)
    as (_ & _ & _ & Hrun).
  destruct (Hrun Doubles.mundo_antipodas "red.json" "centro.json"
              Doubles.red_antipodas Doubles.dos_km)
    as (Hloop & _ & Hfiles).
  - reflexivity.
  - right. left.
  - split; [exact Hloop|exact Hfiles].
Defined.

(** C8 (great-circle distance).  In exact arithmetic [calcular_distancia]
    returns, for all coordinates, the haversine formula on the sphere of
    radius 6 371 000 m applied to the inputs converted from degrees to
    radians.  In every arithmetic that satisfies [PyMathLaws], which are
    laws of IEEE arithmetic, the distance from a point with finite
    coordinates to itself is 0 and the two directions of a pair have the
    same outcome.  But in
    binary64 the function does not return for every pair: from
    (66.06601767658108, 0.0) to (-66.06601764443907, 179.99999999108343)
    rounding makes the value under the square root 1.0000000000000004 and
    [math.asin] raises [ValueError], where the formula gives about
    20 015 087 m. *)
Theorem distance_raises_near_antipodes :
  (∀ lat1 lon1 lat2 lon2 : R,
     Py.calcular_distancia lat1 lon1 lat2 lon2 =
       inr (haversine 6371000 (deg lat1) (deg lon1) (deg lat2) (deg lon2))) ∧
  (∀ (F : Type) (HF : PyFloat F) (HM : PyMath F) (HS : PyFloatSign F),
     PyMathLaws F → PyMathSpec F →
     (∀ lat lon : F,
        f_finite lat = true → f_finite lon = true →
        Py.calcular_distancia lat lon lat lon = inr (f_of_int 0)) ∧
     (∀ lat1 lon1 lat2 lon2 : F,
        Py.calcular_distancia lat1 lon1 lat2 lon2 =
        Py.calcular_distancia lat2 lon2 lat1 lon1)) ∧
  (∀ L : Doubles.Libm, Doubles.glibc_en_antipodas →
     Doubles.coordenadas_validas Doubles.lat_norte Doubles.lon_norte = true ∧
     Doubles.coordenadas_validas Doubles.lat_sur Doubles.lon_este = true ∧
     Py.calcular_distancia Doubles.lat_norte Doubles.lon_norte
       Doubles.lat_sur Doubles.lon_este = inl ValueError).
Proof.
  split; [|split].
  - intros lat1 lon1 lat2 lon2.
    by rewrite py_distancia_R, calcular_distancia_haversine.
  - intros F HF HM HS Hlaws Hspec. split.
    + apply py_distancia_self.
    + apply py_distancia_sym.
  - intros L Hlibm.
    destruct DoublesFacts.antipodas_validas as [Hv1 Hv2].
    split; [done|]. split; [done|].
    by apply DoublesFacts.distancia_antipodas.
Qed.

Lemma distance_raises_witness :
  (Py.calcular_distancia 0 0 0 0 = inr 0%R ∧
   Py.calcular_distancia 0 0 0 (1 / 100) = Py.calcular_distancia 0 (1 / 100) 0 0)%R ∧
  @Py.calcular_distancia PrimFloat.float
    (@Doubles.Double_PyFloat Doubles.libm_ejemplo)
    (@Doubles.Double_PyMath Doubles.libm_ejemplo)
    Doubles.lat_norte Doubles.lon_norte Doubles.lat_sur Doubles.lon_este
    = inl ValueError.
Proof.
  destruct distance_raises_near_antipodes as (_ & Hlaws & Hdoubles).
  destruct (Hlaws R _ _ _ R_PyMathLaws R_PyMathSpec) as [Hself Hsym].
  split; [split|].
  - by apply (Hself 0%R 0%R).
  - apply Hsym.
  - by destruct (Hdoubles Doubles.libm_ejemplo DoublesFacts.libm_ejemplo_glibc)
      as (_ & _ & Hd).
Defined.
End DomainErrors.

(** ** The script on the small dataset *)

Section Runs_on_example.
Open Scope R_scope.

Lemma mundo_red : files mundo !! "red.json" = Some red_ejemplo.
Proof. reflexivity. Qed.

Lemma mundo_lejana : files mundo !! "lejana.json" = Some red_lejana.
Proof. reflexivity. Qed.

(** With every raw word 0 the pool loop takes A, moves C to the front,
    and takes C. *)
Example sample_two_of_three :
  (nodos_muestra [nodo_A; nodo_B; nodo_C] 2 mundo).1 = inr [nodo_A; nodo_C].
Proof. reflexivity. Qed.

Example edges_of_sample_A_C :
  aristas_muestra [calle_AB; calle_BC] (ids_nodos_muestra [nodo_A; nodo_C]) = [].
Proof. reflexivity. Qed.

Example edges_of_sample_A_B :
  aristas_muestra [calle_AB; calle_BC] (ids_nodos_muestra [nodo_A; nodo_B])
    = [calle_AB].
Proof. reflexivity. Qed.

(** The far node is half the equator away from the origin. *)
Lemma distancia_lejana : calcular_distancia 0 0 0 180 = 6371000 * PI.
Proof.
  rewrite calcular_distancia_R.
  replace ((0 - 0) * (PI / 180) / 2) with 0 by field.
  replace (0 * (PI / 180)) with 0 by field.
  replace ((180 - 0) * (PI / 180) / 2) with (PI / 2) by field.
  rewrite sin_0, cos_0, sin_PI2, Rsqr_0, Rsqr_1.
  replace (0 + 1 * 1 * 1) with 1 by ring.
  rewrite sqrt_1, asin_1. field.
Qed.

Lemma nada_cerca : nodos_centro (nodes red_lejana) 0 0 2 = [].
Proof.
  rewrite nodos_centro_filter. simpl.
  rewrite filter_cons_False; [done|].
  unfold dentro. simpl n_lat. simpl n_lon. rewrite distancia_lejana.
  cbn [f_leb f_mul f_of_int R_PyFloat].
  rewrite bool_decide_eq_false_2; [done|].
  pose proof PI2_1. lra.
Qed.

(** *** The radius scenario: centre (0,0), 5 km

    A is at the centre, B about 1.1 km east of it, C more than 1500 km
    away: the node loop keeps A and B, the edge loop keeps A-B only. *)

Lemma distancia_A_B :
  calcular_distancia 0 0 0 (1 / 100) = 6371000 * (2 * (PI / 36000)).
Proof.
  pose proof PI_RGT_0.
  rewrite calcular_distancia_R.
  replace ((0 - 0) * (PI / 180) / 2) with 0 by field.
  replace (0 * (PI / 180)) with 0 by field.
  replace ((1 / 100 - 0) * (PI / 180) / 2) with (PI / 36000) by field.
  rewrite sin_0, cos_0, Rsqr_0.
  replace (0 + 1 * 1 * (sin (PI / 36000))²) with ((sin (PI / 36000))²) by ring.
  rewrite sqrt_Rsqr by (apply sin_ge_0; lra).
  rewrite asin_sin by lra. done.
Qed.

Lemma sin_PI36_lower : 1 / 12 <= sin (PI / 36).
Proof.
  pose proof PI_RGT_0.
  set (y := PI / 36).
  assert (H6 : sin (2 * (2 * y + y)) = 1 / 2).
  { replace (2 * (2 * y + y)) with (PI / 6) by (unfold y; field).
    apply sin_PI6. }
  rewrite sin_2a, sin_plus, sin_2a in H6.
  assert (0 <= sin y) by (apply sin_ge_0; unfold y; lra).
  assert (H2 : 0 <= sin (2 * y)) by (apply sin_ge_0; unfold y; lra).
  assert (H3 : 0 <= sin (2 * y + y)) by (apply sin_ge_0; unfold y; lra).
  rewrite sin_2a in H2. rewrite sin_plus, sin_2a in H3.
  pose proof (COS_bound y) as [_ Hc1].
  pose proof (COS_bound (2 * y)) as [_ Hc2].
  pose proof (COS_bound (2 * y + y)) as [_ Hc3].
  set (a := sin y) in *. set (c := cos y) in *.
  set (c2 := cos (2 * y)) in *. set (c3 := cos (2 * y + y)) in *.
  clearbody a c c2 c3.
  assert (2 * a * c <= 2 * a) by nra.
  assert (c2 * a <= a) by nra.
  assert (2 * a * c * c <= 2 * a * c) by nra.
  assert (2 * a * c * c + c2 * a <= 3 * a) by lra.
  nra.
Qed.

Lemma distancia_A_C : 5 * 1000 < calcular_distancia 0 0 10 10.
Proof.
  pose proof PI_RGT_0. pose proof PI2_1.
  rewrite calcular_distancia_R.
  destruct (calcular_distancia_domain 0 0 10 10) as [[Ha0 Ha1] [Hs0 Hs1]].
  cbv zeta in Ha0, Ha1, Hs0, Hs1.
  set (a := _ + _) in *.
  assert (Hlow : (1 / 12)² <= a).
  { unfold a.
    replace ((10 - 0) * (PI / 180) / 2) with (PI / 36) by field.
    replace (0 * (PI / 180)) with 0 by field.
    replace (10 * (PI / 180)) with (PI / 18) by field.
    rewrite cos_0.
    assert (0 <= cos (PI / 18)) by (apply cos_ge_0; lra).
    pose proof sin_PI36_lower as Hs.
    assert ((1 / 12)² <= (sin (PI / 36))²) by (apply Rsqr_incr_1; lra).
    pose proof (Rle_0_sqr (sin (PI / 36))).
    nra. }
  assert (Hs : 1 / 12 <= sqrt a).
  { rewrite <- (sqrt_Rsqr (1 / 12)) by lra. by apply sqrt_le_1_alt. }
  apply Rnot_le_lt. intros Hle.
  set (θ := 1 / 2000).
  pose proof (asin_bound (sqrt a)) as [Hlb Hub].
  assert (Hθ : asin (sqrt a) <= θ) by (unfold θ; lra).
  assert (sin (asin (sqrt a)) <= sin θ).
  { apply sin_incr_1; unfold θ in *; lra. }
  rewrite sin_asin in * by lra.
  pose proof (sin_lt_x θ). unfold θ in *. lra.
Qed.

Example scenario_radius_5km :
  nodos_centro (nodes red_ejemplo) 0 0 5 = [nodo_A; nodo_B] ∧
  aristas_centro (edges red_ejemplo) (ids_nodos_centro [nodo_A; nodo_B])
    = [calle_AB].
Proof.
  split; [|reflexivity].
  rewrite nodos_centro_filter. simpl.
  assert (HA : dentro 0 0 5 nodo_A).
  { unfold dentro. simpl n_lat. simpl n_lon. rewrite calcular_distancia_self.
    cbn [f_leb f_mul f_of_int R_PyFloat].
    apply bool_decide_eq_true_2. lra. }
  assert (HB : dentro 0 0 5 nodo_B).
  { unfold dentro. simpl n_lat. simpl n_lon. rewrite distancia_A_B.
    cbn [f_leb f_mul f_of_int R_PyFloat].
    apply bool_decide_eq_true_2. pose proof PI_4. lra. }
  assert (HC : ¬ dentro 0 0 5 nodo_C).
  { unfold dentro. simpl n_lat. simpl n_lon.
    cbn [f_leb f_mul f_of_int R_PyFloat].
    rewrite bool_decide_eq_false_2; [done|].
    pose proof distancia_A_C. lra. }
  rewrite filter_cons_True by exact HA.
  rewrite filter_cons_True by exact HB.
  rewrite filter_cons_False by exact HC.
  done.
Qed.

(** The whole radius run on the scenario: the reduced dataset is written
    and the statistics are printed to the end. *)
Example scenario_radius_run :
  archivos (crear_muestra_centro "red.json" "centro.json" 0 0 5) mundo
    !! "centro.json"
    = Some (muestra_centro red_ejemplo 0 0 5 [nodo_A; nodo_B] [calle_AB]) ∧
  resultado (crear_muestra_centro "red.json" "centro.json" 0 0 5) mundo = inr tt.
Proof.
  destruct (centro_run mundo "red.json" "centro.json" 0 0 5 red_ejemplo)
    as [Hfiles Hres]; [reflexivity|].
  destruct scenario_radius_5km as [Hn He].
  rewrite Hn in Hfiles, Hres. rewrite He in Hfiles.
  rewrite Hfiles, Hres, lookup_insert_eq. done.
Qed.



(** C3 as stated fails on a negative [max_nodos]: the sampler returns no
    list of [min(-1, 3)] nodes, it raises. *)
Lemma sampler_negative_counterexample :
  nodos_muestra [nodo_A; nodo_B; nodo_C] (-1) mundo = (inl ValueError, mundo) ∧
  ¬ ∃ l w', nodos_muestra [nodo_A; nodo_B; nodo_C] (-1) mundo = (inr l, w') ∧
            len l = Z.min (-1) (len [nodo_A; nodo_B; nodo_C]).
Proof.
  assert (E : nodos_muestra [nodo_A; nodo_B; nodo_C] (-1) mundo
              = (inl ValueError, mundo)) by reflexivity.
  split; [exact E|].
  intros (l & w' & Hrun & _). rewrite E in Hrun. discriminate.
Qed.

(** C3, amended, on the example. *)
Lemma sampler_bound_witness :
  (0 ≤ 2)%Z ∧
  ∃ l w', nodos_muestra [nodo_A; nodo_B; nodo_C] 2 mundo = (inr l, w') ∧
          len l = Z.min 2 (len [nodo_A; nodo_B; nodo_C]) ∧
          l ⊆+ [nodo_A; nodo_B; nodo_C] ∧
          ((len [nodo_A; nodo_B; nodo_C] ≤ 2)%Z → l ≡ₚ [nodo_A; nodo_B; nodo_C]).
Proof.
  split; [lia|]. apply sampler_bound. lia.
Defined.

(** C5 at a failing input: [max_nodos = 0] on the example. *)
Lemma density_division_unguarded_witness :
  resultado (crear_muestra_calles "red.json" "muestra.json" 0) mundo
    = inl ZeroDivisionError.
Proof.
  apply (proj1 (proj2 density_division_unguarded) mundo "red.json"
           "muestra.json" 0%Z red_ejemplo);
    [reflexivity | lia | left; reflexivity].
Defined.

(** C6 at a failing input: no node of the far network is within 2 km of
    the origin. *)
Lemma empty_selection_witness :
  (∃ d, archivos (crear_muestra_centro "lejana.json" "centro.json" 0 0 2) mundo
          !! "centro.json" = Some d ∧
        nodes d = [] ∧ edges d = [] ∧
        total_nodes (meta d) = 0%Z ∧ total_edges (meta d) = 0%Z) ∧
  resultado (crear_muestra_centro "lejana.json" "centro.json" 0 0 2) mundo
    = inl ZeroDivisionError.
Proof.
  apply (proj2 empty_selection_written_then_raises mundo "lejana.json"
           "centro.json" 0 0 2 red_lejana);
    [reflexivity | exact nada_cerca].
Defined.



(** C9 on the example: radius 2 km against radius 5 km around the
    origin. *)
Lemma radius_monotone_witness :
  f_ltb 2 5 = true ∧
  ∀ n, n ∈ nodos_centro (nodes red_ejemplo) 0 0 2 →
       n ∈ nodos_centro (nodes red_ejemplo) 0 0 5.
Proof.
  assert (Hlt : f_ltb 2 5 = true).
  { simpl. apply bool_decide_eq_true_2. lra. }
  split; [exact Hlt|].
  exact (radius_monotone (nodes red_ejemplo) 0 0 2 5 Hlt).
Defined.

(** C10 on the example: [max_nodos = -1]. *)
Lemma negative_max_nodes_witness :
  (-1 < 0)%Z ∧
  (∃ e, resultado (crear_muestra_calles "red.json" "muestra.json" (-1)) mundo
          = inl e) ∧
  (∀ data, files mundo !! "red.json" = Some data →
           resultado (crear_muestra_calles "red.json" "muestra.json" (-1)) mundo
             = inl ValueError) ∧
  archivos (crear_muestra_calles "red.json" "muestra.json" (-1)) mundo
    = files mundo.
Proof.
  split; [lia|]. apply negative_max_nodes_fails_before_write. lia.
Defined.
End Runs_on_example.


(** * Further properties of the two reducers *)

Section MoreRuns.
Context `{PyFloat F}.
Implicit Types (w : world F) (data d : dataset F).

Lemma calles_run_missing w orig dest (max_nodos : Z) :
  files w !! orig = None →
  archivos (crear_muestra_calles orig dest max_nodos) w = files w ∧
  resultado (crear_muestra_calles orig dest max_nodos) w = inl FileNotFoundError.
Proof.
  intros Hfile. unfold archivos, resultado, crear_muestra_calles.
  rewrite bind_print; cbv beta.
  rewrite bind_json_load_missing by done. done.
Qed.

Lemma centro_run_missing w orig dest (centro_lat centro_lon radio_km : F) :
  files w !! orig = None →
  archivos (crear_muestra_centro orig dest centro_lat centro_lon radio_km) w
    = files w ∧
  resultado (crear_muestra_centro orig dest centro_lat centro_lon radio_km) w
    = inl FileNotFoundError.
Proof.
  intros Hfile. unfold archivos, resultado, crear_muestra_centro.
  rewrite bind_print; cbv beta.
  rewrite bind_json_load_missing by done. done.
Qed.

Lemma ids_de_perm (l k : list (node F)) : l ≡ₚ k → ids_de l = ids_de k.
Proof. intros Hp. unfold ids_de. by rewrite Hp. Qed.



Lemma filter_all {A} (P : A → Prop) `{!∀ x, Decision (P x)} (l : list A) :
  (∀ x, x ∈ l → P x) → filter P l = l.
Proof.
  induction l as [|x l IH]; intros Hall; [done|].
  rewrite filter_cons_True by (apply Hall; left).
  f_equal. apply IH. intros y Hy. apply Hall. by right.
Qed.

Lemma filter_nonempty_iff {A} (P : A → Prop) `{!∀ x, Decision (P x)} (l : list A) :
  filter P l ≠ [] ↔ ∃ x, x ∈ l ∧ P x.
Proof.
  split.
  - intros Hne. destruct (filter P l) as [|x k] eqn:E; [done|].
    assert (x ∈ filter P l) as Hx by (rewrite E; left).
    apply list_elem_of_filter in Hx. exists x. tauto.
  - intros (x & Hx & HP) E.
    assert (x ∈ filter P l) as Hin by (apply list_elem_of_filter; done).
    rewrite E in Hin. by apply not_elem_of_nil in Hin.
Qed.

(** X1 (missing input).  When the input path holds no file, either
    reducer ends with [FileNotFoundError] and the files are exactly those it
    started from. *)
Theorem missing_input_fails_clean w orig dest
    (max_nodos : Z) (centro_lat centro_lon radio_km : F) :
  files w !! orig = None →
  (resultado (crear_muestra_calles orig dest max_nodos) w = inl FileNotFoundError ∧
   archivos (crear_muestra_calles orig dest max_nodos) w = files w) ∧
  (resultado (crear_muestra_centro orig dest centro_lat centro_lon radio_km) w
     = inl FileNotFoundError ∧
   archivos (crear_muestra_centro orig dest centro_lat centro_lon radio_km) w
     = files w).
Proof.
  intros Hfile. split.
  - by destruct (calles_run_missing w orig dest max_nodos Hfile).
  - by destruct (centro_run_missing w orig dest centro_lat centro_lon radio_km Hfile).
Qed.

(** With [max_nodos] at least the number of input nodes, the sample is
    the whole input. *)
Lemma calles_run_oversized w orig dest (max_nodos : Z) data :
  files w !! orig = Some data →
  (len (nodes data) ≤ max_nodos)%Z →
  ∃ d, archivos (crear_muestra_calles orig dest max_nodos) w !! dest = Some d ∧
       nodes d ≡ₚ nodes data ∧
       edges d = filter (ambos_en (ids_de (nodes data))) (edges data) ∧
       ((∀ e, e ∈ edges data →
              e_from e ∈ ids_de (nodes data) ∧ e_to e ∈ ids_de (nodes data)) →
        edges d = edges data).
Proof.
  intros Hfile Hmax.
  assert (0 ≤ max_nodos)%Z as Hpos by (unfold len in Hmax; lia).
  destruct (calles_run w orig dest max_nodos data Hfile Hpos)
    as (nodos & Hlen & Hsub & Hfiles & _).
  assert (nodos ≡ₚ nodes data) as Hperm.
  { apply submseteq_length_Permutation; [done|]. unfold len in *. lia. }
  eexists. rewrite Hfiles, lookup_insert_eq. split; [done|]. simpl.
  split; [done|].
  rewrite aristas_muestra_filter.
  change (ids_nodos_muestra nodos) with (ids_de nodos).
  rewrite (ids_de_perm _ _ Hperm).
  split; [done|].
  intros Hcons. apply filter_all. exact Hcons.
Qed.

(** X4 (clipping keeps the network).  When [max_nodos] is at least the
    number of input nodes, the written sample has all the input nodes (in
    some order) and every input edge whose endpoints are input nodes; on an
    input without dangling edges the edge list is written unchanged. *)
Theorem oversized_sample_keeps_everything w orig dest (max_nodos : Z) data :
  files w !! orig = Some data →
  (len (nodes data) ≤ max_nodos)%Z →
  ∃ d, archivos (crear_muestra_calles orig dest max_nodos) w !! dest = Some d ∧
       nodes d ≡ₚ nodes data ∧
       edges d = filter (ambos_en (ids_de (nodes data))) (edges data) ∧
       ((∀ e, e ∈ edges data →
              e_from e ∈ ids_de (nodes data) ∧ e_to e ∈ ids_de (nodes data)) →
        edges d = edges data).
Proof. apply calles_run_oversized. Qed.






End MoreRuns.

(** ** The [__main__] block of the reducers *)

Section MainProperties.
Context `{PyFloat F} `{PyFloatLiteral F}.
Implicit Types (w : world F) (data d : dataset F).

Lemma main_unfold w :
  main w =
    match crear_muestra_calles "public/calles_culiacán__sinaloa__méxico.json"
            "public/calles_culiacan_muestra_1000.json" 1000 w with
    | (inl e, w1) => (inl e, w1)
    | (inr _, w1) =>
        crear_muestra_centro "public/calles_culiacán__sinaloa__méxico.json"
          "public/calles_culiacan_centro.json"
          (f_literal 247841 4) (f_literal (-1073866) 4) (f_of_int 2) w1
    end.
Proof. reflexivity. Qed.

(** X14 ([__main__], first call fails).  When the input is missing, or has
    no node, the first call raises and the second is never started: the
    file of the centred sample is left as it was.  In the second case the
    empty random sample has already been written. *)
Theorem main_stops_after_failed_sample w :
  (files w !! "public/calles_culiacán__sinaloa__méxico.json" = None →
   resultado main w = inl FileNotFoundError ∧ archivos main w = files w) ∧
  (∀ data,
     files w !! "public/calles_culiacán__sinaloa__méxico.json" = Some data →
     nodes data = [] →
     resultado main w = inl ZeroDivisionError ∧
     archivos main w !! "public/calles_culiacan_centro.json"
       = files w !! "public/calles_culiacan_centro.json" ∧
     ∃ d1, archivos main w !! "public/calles_culiacan_muestra_1000.json" = Some d1 ∧
           nodes d1 = [] ∧ edges d1 = []).
Proof.
  split.
  - intros Hfile.
    destruct (calles_run_missing w _ "public/calles_culiacan_muestra_1000.json"
                1000 Hfile) as [Hfiles Hres].
    unfold archivos, resultado in *. rewrite main_unfold.
    destruct (crear_muestra_calles _ _ 1000 w) as [[e|[]] w1]; simpl in *;
      [|done]. by inversion Hres.
  - intros data Hfile Hempty.
    destruct (calles_run w _ "public/calles_culiacan_muestra_1000.json" 1000
                data Hfile) as (nodos & Hlen & _ & Hfiles & Hres); [lia|].
    assert (nodos = []) as ->.
    { apply len_nil_iff. rewrite Hlen, Hempty. unfold len. simpl. lia. }
    rewrite bool_decide_eq_true_2 in Hres by done.
    unfold archivos, resultado in *. rewrite main_unfold.
    destruct (crear_muestra_calles _ _ 1000 w) as [[e|[]] w1]; simpl in *;
      [|done].
    inversion Hres; subst e. split; [done|].
    rewrite Hfiles. split; [by rewrite lookup_insert_ne|].
    eexists. rewrite lookup_insert_eq. split; [done|]. simpl.
    split; [done|]. apply aristas_sin_nodos.
Qed.
End MainProperties.

(** ** Runs of the radius reducer with the domain errors of [math] *)

Section CheckedRuns.
Context `{PyMath F}.
Implicit Types (w : world F) (data d : dataset F).

(** X21 (the two readings of the radius reducer).  With the exceptions of
    [math] taken into account, a run of [crear_muestra_centro] goes one of
    two ways.  If every distance of the node loop is computed, the run is
    the run of the reducer with total math functions: same selection, same
    result, same files, same output.  If a distance raises, the run ends
    with [ValueError] after the first [print] and before [json.dump], and
    the files are as they were. *)
Theorem checked_reducer_refines `{!PyMathSpec F} w orig dest
    (centro_lat centro_lon radio_km : F) :
  match files w !! orig with
  | None =>
      Py.crear_muestra_centro orig dest centro_lat centro_lon radio_km w =
      crear_muestra_centro orig dest centro_lat centro_lon radio_km w
  | Some data =>
      match Py.nodos_centro (nodes data) centro_lat centro_lon radio_km with
      | inr sel =>
          sel = nodos_centro (nodes data) centro_lat centro_lon radio_km ∧
          Py.crear_muestra_centro orig dest centro_lat centro_lon radio_km w =
          crear_muestra_centro orig dest centro_lat centro_lon radio_km w
      | inl e =>
          e = ValueError ∧
          (∃ n, n ∈ nodes data ∧
                Py.calcular_distancia centro_lat centro_lon (n_lat n) (n_lon n)
                  = inl ValueError) ∧
          Py.crear_muestra_centro orig dest centro_lat centro_lon radio_km w =
          (inl ValueError,
           World (files w)
                 (stdout w ++ [[T "📖 Leyendo dataset completo: "; T orig]])
                 (rng w))
      end
  end.
Proof.
  destruct (files w !! orig) as [data|] eqn:Hfile;
    [|by apply py_centro_run_missing].
  pose proof (py_nodos_centro_spec (nodes data) centro_lat centro_lon radio_km)
    as Hspec.
  destruct (Py.nodos_centro (nodes data) centro_lat centro_lon radio_km)
    as [e|sel] eqn:Hloop.
  - pose proof (py_nodos_centro_error _ _ _ _ _ Hloop) as ->.
    split; [done|]. split.
    + destruct Hspec as (l1 & n & l2 & Hns & _ & Hn).
      exists n. split; [|done]. rewrite Hns. apply elem_of_app. right. left.
    + unfold Py.crear_muestra_centro.
      rewrite bind_print; cbv beta.
      rewrite (bind_json_load _ _ _ data) by done; cbv beta.
      set (w1 := World _ _ _).
      rewrite (bind_inl _ _ w1 ValueError w1); [done|].
      by rewrite Hloop.
  - pose proof (py_nodos_centro_value _ _ _ _ _ Hloop) as Hsel.
    split; [done|].
    unfold Py.crear_muestra_centro, crear_muestra_centro.
    rewrite !bind_print; cbv beta.
    rewrite !(bind_json_load _ _ _ data) by done; cbv beta zeta.
    set (w1 := World _ _ _).
    rewrite (bind_inr _ _ w1 sel w1) by (by rewrite Hloop).
    by rewrite Hsel.
Qed.

(** X3 (normal completion).  On a readable input the random reducer (with
    [max_nodos >= 0]) returns normally exactly when [max_nodos > 0] and the
    input has a node.  The radius reducer returns normally exactly when
    every distance of the node loop is computed and some input node is
    within the radius.  When a distance raises, the run ends with that
    exception and the files are as they were; when every distance is
    computed and no node is within the radius, it ends with
    [ZeroDivisionError]. *)
Theorem run_completes_iff_selection_nonempty w orig dest data
    (max_nodos : Z) (centro_lat centro_lon radio_km : F) :
  files w !! orig = Some data →
  ((0 ≤ max_nodos)%Z →
   (resultado (crear_muestra_calles orig dest max_nodos) w = inr tt ↔
    (0 < max_nodos)%Z ∧ nodes data ≠ [])) ∧
  (resultado (Py.crear_muestra_centro orig dest centro_lat centro_lon radio_km) w
     = inr tt ↔
   (∀ n, n ∈ nodes data →
         ∃ dist, Py.calcular_distancia centro_lat centro_lon (n_lat n) (n_lon n)
                = inr dist) ∧
   ∃ n, n ∈ nodes data ∧ Py.dentro centro_lat centro_lon radio_km n) ∧
  (∀ e, Py.nodos_centro (nodes data) centro_lat centro_lon radio_km = inl e →
        resultado (Py.crear_muestra_centro orig dest
                     centro_lat centro_lon radio_km) w = inl e ∧
        archivos (Py.crear_muestra_centro orig dest
                    centro_lat centro_lon radio_km) w = files w) ∧
  (Py.nodos_centro (nodes data) centro_lat centro_lon radio_km = inr [] →
   resultado (Py.crear_muestra_centro orig dest centro_lat centro_lon radio_km) w
     = inl ZeroDivisionError).
Proof.
  intros Hfile. split; [|split; [|split]].
  - intros Hmax.
    destruct (calles_run w orig dest max_nodos data Hfile Hmax)
      as (nodos & Hlen & _ & _ & Hres).
    rewrite Hres.
    assert (nodos = [] ↔ ¬ ((0 < max_nodos)%Z ∧ nodes data ≠ [])) as Hiff.
    { rewrite <- len_nil_iff, Hlen.
      rewrite <- (len_nil_iff (nodes data)).
      unfold len. lia. }
    destruct (decide (nodos = [])) as [E|E].
    + rewrite bool_decide_eq_true_2 by done. split; [done|].
      intros Hok. by apply Hiff in E.
    + rewrite bool_decide_eq_false_2 by done. split; [|done].
      intros _. destruct (decide ((0 < max_nodos)%Z ∧ nodes data ≠ [])); [done|].
      exfalso. apply E. by apply Hiff.
  - pose proof (py_centro_run w orig dest centro_lat centro_lon radio_km data Hfile)
      as Hrun.
    pose proof (py_nodos_centro_spec (nodes data) centro_lat centro_lon radio_km)
      as Hspec.
    destruct (Py.nodos_centro (nodes data) centro_lat centro_lon radio_km)
      as [e|sel].
    + destruct Hrun as [_ ->]. split; [done|].
      intros [Hall _]. destruct Hspec as (l1 & n & l2 & Hns & _ & Hn).
      destruct (Hall n) as [d Hd]; [|congruence].
      rewrite Hns. apply elem_of_app. right. left.
    + destruct Hrun as [_ ->]. destruct Hspec as [Hall ->].
      rewrite <- filter_nonempty_iff.
      destruct (decide (filter (Py.dentro centro_lat centro_lon radio_km)
                          (nodes data) = [])) as [E|E].
      * rewrite bool_decide_eq_true_2 by done. split; [done|]. by intros [_ ?].
      * rewrite bool_decide_eq_false_2 by done. split; done.
  - intros e He.
    pose proof (py_centro_run w orig dest centro_lat centro_lon radio_km data Hfile)
      as Hrun.
    rewrite He in Hrun. tauto.
  - intros He.
    pose proof (py_centro_run w orig dest centro_lat centro_lon radio_km data Hfile)
      as Hrun.
    rewrite He in Hrun. by destruct Hrun as [_ ->].
Qed.

(** X12 (a node at the centre).  In an arithmetic that satisfies
    [PyMathLaws], for a centre with finite coordinates and [radio_km >= 0]:
    if the node loop returns, every input node whose coordinates are those
    of the centre is selected, so a run on an input with such a node writes
    it and returns normally; if a distance of another node raises, the run
    ends with that exception and the files are as they were. *)
Theorem centre_node_always_selected `{!PyFloatSign F} `{!PyMathLaws F}
    w orig dest data (centro_lat centro_lon radio_km : F) (n : node F) :
  files w !! orig = Some data →
  f_leb (f_of_int 0) radio_km = true →
  f_finite centro_lat = true → f_finite centro_lon = true →
  n ∈ nodes data → n_lat n = centro_lat → n_lon n = centro_lon →
  Py.dentro centro_lat centro_lon radio_km n ∧
  match Py.nodos_centro (nodes data) centro_lat centro_lon radio_km with
  | inr sel =>
      n ∈ sel ∧
      (∃ d, archivos (Py.crear_muestra_centro orig dest
                        centro_lat centro_lon radio_km) w !! dest = Some d ∧
            n ∈ nodes d) ∧
      resultado (Py.crear_muestra_centro orig dest
                   centro_lat centro_lon radio_km) w = inr tt
  | inl e =>
      (∃ m, m ∈ nodes data ∧ m ≠ n ∧
            Py.calcular_distancia centro_lat centro_lon (n_lat m) (n_lon m)
              = inl e) ∧
      resultado (Py.crear_muestra_centro orig dest
                   centro_lat centro_lon radio_km) w = inl e ∧
      archivos (Py.crear_muestra_centro orig dest
                  centro_lat centro_lon radio_km) w = files w
  end.
Proof.
  intros Hfile Hr Hlat Hlon Hin Hnlat Hnlon.
  assert (Py.calcular_distancia centro_lat centro_lon (n_lat n) (n_lon n)
          = inr (f_of_int 0)) as Hd.
  { rewrite Hnlat, Hnlon. by apply py_distancia_self. }
  assert (Py.dentro centro_lat centro_lon radio_km n) as Hdentro.
  { exists (f_of_int 0). split; [done|]. by apply law_zero_le_scale. }
  split; [done|].
  pose proof (py_centro_run w orig dest centro_lat centro_lon radio_km data Hfile)
    as Hrun.
  pose proof (py_nodos_centro_spec (nodes data) centro_lat centro_lon radio_km)
    as Hspec.
  destruct (Py.nodos_centro (nodes data) centro_lat centro_lon radio_km)
    as [e|sel].
  - split; [|tauto]. destruct Hspec as (l1 & m & l2 & Hns & _ & Hm).
    exists m. split; [|split; [|done]].
    + rewrite Hns. apply elem_of_app. right. left.
    + intros ->. congruence.
  - destruct Hspec as [_ ->]. destruct Hrun as [Hfiles Hres].
    assert (n ∈ filter (Py.dentro centro_lat centro_lon radio_km) (nodes data))
      as Hsel by (by apply list_elem_of_filter).
    split; [done|]. split.
    + eexists. rewrite Hfiles, lookup_insert_eq. split; [done|]. done.
    + rewrite Hres. rewrite bool_decide_eq_false_2; [done|].
      intros E. rewrite E in Hsel. by apply not_elem_of_nil in Hsel.
Qed.

Context `{PyFloatLiteral F}.

Lemma py_main_unfold w :
  Py.main w =
    match crear_muestra_calles "public/calles_culiacán__sinaloa__méxico.json"
            "public/calles_culiacan_muestra_1000.json" 1000 w with
    | (inl e, w1) => (inl e, w1)
    | (inr _, w1) =>
        Py.crear_muestra_centro "public/calles_culiacán__sinaloa__méxico.json"
          "public/calles_culiacan_centro.json"
          (f_literal 247841 4) (f_literal (-1073866) 4) (f_of_int 2) w1
    end.
Proof. reflexivity. Qed.

(** X13 ([__main__], both calls).  On a readable input with at least one
    node the script writes the random sample, [min(1000, len(nodes))] input
    nodes, and then runs the radius reducer on the unmodified input.  If
    every distance to the centre (24.7841, -107.3866) is computed, the
    second file is written with the nodes within 2 km, and the script
    returns normally exactly when there is such a node.  If a distance
    raises, the script ends with that exception and the second file is
    left as it was. *)
Theorem main_writes_both_outputs w data :
  files w !! "public/calles_culiacán__sinaloa__méxico.json" = Some data →
  nodes data ≠ [] →
  ∃ d1,
    archivos Py.main w !! "public/calles_culiacan_muestra_1000.json" = Some d1 ∧
    archivos Py.main w !! "public/calles_culiacán__sinaloa__méxico.json" = Some data ∧
    len (nodes d1) = Z.min 1000 (len (nodes data)) ∧
    nodes d1 ⊆+ nodes data ∧
    match Py.nodos_centro (nodes data)
            (f_literal 247841 4) (f_literal (-1073866) 4) (f_of_int 2) with
    | inr sel =>
        sel = filter (Py.dentro (f_literal 247841 4) (f_literal (-1073866) 4)
                        (f_of_int 2)) (nodes data) ∧
        (∃ d2, archivos Py.main w !! "public/calles_culiacan_centro.json" = Some d2 ∧
               nodes d2 = sel) ∧
        (resultado Py.main w = inr tt ↔ sel ≠ [])
    | inl e =>
        resultado Py.main w = inl e ∧
        archivos Py.main w !! "public/calles_culiacan_centro.json"
          = files w !! "public/calles_culiacan_centro.json"
    end.
Proof.
  intros Hfile Hne.
  destruct (calles_run w _ "public/calles_culiacan_muestra_1000.json" 1000 data Hfile)
    as (nodos & Hlen & Hsub & Hfiles & Hres); [lia|].
  assert (nodos ≠ []) as Hnodos.
  { rewrite <- len_nil_iff, Hlen. rewrite <- len_nil_iff in Hne.
    unfold len in *. lia. }
  rewrite bool_decide_eq_false_2 in Hres by done.
  unfold archivos, resultado in *. rewrite py_main_unfold.
  destruct (crear_muestra_calles _ _ 1000 w) as [[e|[]] w1]; simpl in Hres;
    [done|]. simpl in Hfiles.
  assert (files w1 !! "public/calles_culiacán__sinaloa__méxico.json" = Some data)
    as Hfile1 by (rewrite Hfiles, lookup_insert_ne; done).
  pose proof (py_centro_run w1 _ "public/calles_culiacan_centro.json"
                (f_literal 247841 4) (f_literal (-1073866) 4) (f_of_int 2)
                data Hfile1) as Hrun.
  pose proof (py_nodos_centro_spec (nodes data)
                (f_literal 247841 4) (f_literal (-1073866) 4) (f_of_int 2))
    as Hspec.
  unfold archivos, resultado in Hrun.
  destruct (Py.nodos_centro (nodes data) (f_literal 247841 4)
              (f_literal (-1073866) 4) (f_of_int 2)) as [e|sel].
  - destruct Hrun as [Hfiles2 Hres2]. rewrite Hfiles2, Hres2, Hfiles.
    eexists. split; [by rewrite lookup_insert_eq|].
    split; [by rewrite lookup_insert_ne|].
    simpl. split; [done|]. split; [done|]. split; [done|].
    by rewrite lookup_insert_ne.
  - destruct Hrun as [Hfiles2 Hres2]. destruct Hspec as [_ Hsel].
    rewrite Hfiles2, Hres2, Hfiles.
    eexists. split.
    { rewrite lookup_insert_ne by done. by rewrite lookup_insert_eq. }
    split; [by rewrite !lookup_insert_ne|].
    simpl. split; [done|]. split; [done|]. split; [done|]. split.
    { eexists. rewrite lookup_insert_eq. done. }
    destruct (decide (sel = [])) as [E|E].
    + rewrite bool_decide_eq_true_2 by done. split; done.
    + rewrite bool_decide_eq_false_2 by done. split; done.
Qed.
End CheckedRuns.

(** ** The extractor *)

Section ExtractorProperties.
Context `{PyFloat F}.
Variable graph_from_place : string → string + grafo F.
Variable simplify_graph : grafo F → string + grafo F.
Variable lower : string → string.
Implicit Types (w : world F) (G : grafo F).

Lemma bindX_print {A} (l : fstring F) (k : unit → MX F A) w :
  bindX (lift (print l)) k w = k tt (World (files w) (stdout w ++ [l]) (rng w)).
Proof. done. Qed.

Lemma bindX_json_dump {A} d path (k : unit → MX F A) w :
  bindX (lift (json_dump d path)) k w =
    k tt (World (<[path := d]> (files w)) (stdout w) (rng w)).
Proof. done. Qed.

Lemma bindX_truediv {A} (a b : Z) (k : F → MX F A) w :
  bindX (lift (truediv a b)) k w =
    if bool_decide (b = 0%Z) then (inl (Builtin ZeroDivisionError), w)
    else k (f_div (f_of_int a) (f_of_int b)) w.
Proof.
  unfold bindX, lift. rewrite truediv_run. by destruct (bool_decide _).
Qed.

Lemma bindX_inr {A B} (m : MX F A) (k : A → MX F B) w a w' :
  m w = (inr a, w') → bindX m k w = k a w'.
Proof. intros E. unfold bindX. by rewrite E. Qed.

Lemma bindX_inl {A B} (m : MX F A) (k : A → MX F B) w e w' :
  m w = (inl e, w') → bindX m k w = (inl e, w').
Proof. intros E. unfold bindX. by rewrite E. Qed.

(** The [try] around the simplification never lets an exception out. *)
Lemma simplificar_run G0 w :
  ∃ w', simplificar simplify_graph G0 w = (inr (grafo_final simplify_graph G0), w') ∧
        files w' = files w.
Proof.
  unfold simplificar, grafo_final, try_except, llamar.
  destruct (simplify_graph G0) as [mensaje|G]; simpl.
  - eexists. rewrite bindX_print. unfold retX. split; done.
  - exists w. done.
Qed.

Lemma foldl_append_map {A B} (f : A → B) (l : list A) (acc : list B) :
  foldl (λ acc x, acc ++ [f x]) acc l = acc ++ (f <$> l).
Proof.
  revert acc. induction l as [|x l IH]; intros acc; simpl.
  - by rewrite app_nil_r.
  - rewrite IH. by rewrite <- app_assoc.
Qed.

Lemma nodos_de_map G : nodos_de G = nodo_de <$> g_nodes G.
Proof. unfold nodos_de. by rewrite foldl_append_map. Qed.

Lemma aristas_de_map G : aristas_de G = arista_de <$> g_edges G.
Proof. unfold aristas_de. by rewrite foldl_append_map. Qed.

Lemma id_nodo_de (l : list (Z * osm_node F)) : n_id <$> (nodo_de <$> l) = l.*1.
Proof.
  rewrite <- list_fmap_compose. apply list_fmap_ext. by intros _ [i data] _.
Qed.

(** A run of the extractor whose download succeeds. *)
Lemma extraer_run w ciudad (distancia_km : Z) G0 :
  graph_from_place ciudad = inr G0 →
  let G := grafo_final simplify_graph G0 in
  let d := dataset_de ciudad (nodos_de G) (aristas_de G) in
  let run := extraer_calles_ciudad graph_from_place simplify_graph lower
               ciudad distancia_km w in
  files run.2 = <[filename_de lower ciudad := d]> (files w) ∧
  run.1 = if bool_decide (g_nodes G = []) then inl (Builtin ZeroDivisionError)
          else inr d.
Proof.
  intros Hplace G d run. unfold run, extraer_calles_ciudad.
  rewrite bindX_print; cbv beta.
  rewrite Hplace. set (w1 := World _ _ _).
  rewrite (bindX_inr _ _ _ G0 w1) by done.
  destruct (simplificar_run G0 w1) as (w2 & Hsimp & Hf2).
  rewrite (bindX_inr _ _ _ _ w2 Hsimp). cbv beta zeta.
  rewrite bindX_print; cbv beta.
  rewrite bindX_json_dump; cbv beta.
  do 4 (rewrite bindX_print; cbv beta).
  rewrite bindX_truediv. fold G. fold d.
  assert (len (nodos_de G) = 0%Z ↔ g_nodes G = []) as Hz.
  { rewrite len_nil_iff, nodos_de_map. split.
    - by apply fmap_nil_inv.
    - by intros ->. }
  destruct (decide (g_nodes G = [])) as [E|E].
  - rewrite !bool_decide_eq_true_2 by tauto. simpl. by rewrite Hf2.
  - rewrite !bool_decide_eq_false_2 by tauto.
    rewrite bindX_print; cbv beta. unfold retX. simpl. by rewrite Hf2.
Qed.

(** A run of the extractor whose download raises. *)
Lemma extraer_run_fail w ciudad (distancia_km : Z) mensaje :
  graph_from_place ciudad = inl mensaje →
  extraer_calles_ciudad graph_from_place simplify_graph lower
    ciudad distancia_km w =
  (inl (Osmnx mensaje),
   World (files w)
         (stdout w ++ [[T "🗺️ Extrayendo calles de "; T ciudad; T "..."]])
         (rng w)).
Proof.
  intros Hplace. unfold extraer_calles_ciudad.
  rewrite bindX_print; cbv beta.
  rewrite Hplace. done.
Qed.

(** X15 (the extracted dataset mirrors the graph).  When the download
    succeeds, the file named after the city holds one node per graph node
    and one edge per graph edge, in the order of the graph, with the graph's
    ids, [lat] taken from [y] and [lon] from [x]; the counts are the sizes
    of the graph, [city] is the argument, and [simplified] is [True] whether
    or not the simplification went through.  [distancia_km] plays no part. *)
Theorem extraction_mirrors_graph w ciudad (distancia_km : Z) G0 :
  graph_from_place ciudad = inr G0 →
  let G := grafo_final simplify_graph G0 in
  let run := extraer_calles_ciudad graph_from_place simplify_graph lower
               ciudad distancia_km w in
  ∃ d, files run.2 !! filename_de lower ciudad = Some d ∧
       n_id <$> nodes d = (g_nodes G).*1 ∧
       (λ n, (n_lat n, n_lon n)) <$> nodes d
         = (λ nd, (osm_y nd.2, osm_x nd.2)) <$> g_nodes G ∧
       (λ e, (e_from e, e_to e)) <$> edges d = (g_edges G).*1 ∧
       total_nodes (meta d) = len (g_nodes G) ∧
       total_edges (meta d) = len (g_edges G) ∧
       city (meta d) = ciudad ∧
       simplified (meta d) = Some true.
Proof.
  intros Hplace G run.
  destruct (extraer_run w ciudad distancia_km G0 Hplace) as [Hfiles _].
  fold G in Hfiles. fold run in Hfiles.
  eexists. rewrite Hfiles, lookup_insert_eq. split; [done|]. simpl.
  rewrite nodos_de_map, aristas_de_map.
  split; [apply id_nodo_de|].
  split.
  { rewrite <- list_fmap_compose. apply list_fmap_ext. by intros _ [i data] _. }
  split.
  { rewrite <- list_fmap_compose. apply list_fmap_ext. by intros _ [[u v] data] _. }
  unfold len. rewrite !length_fmap. done.
Qed.

Lemma aristas_de_cerradas G :
  grafo_cerrado G →
  ∀ e, e ∈ aristas_de G →
       e_from e ∈ ids_de (nodos_de G) ∧ e_to e ∈ ids_de (nodos_de G).
Proof.
  intros Hc e. rewrite aristas_de_map, list_elem_of_fmap.
  intros ([[u v] data] & -> & Hin). simpl.
  unfold ids_de. rewrite !elem_of_list_to_set, nodos_de_map, id_nodo_de.
  by apply (Hc u v data).
Qed.

(** X16 (extract, then sample everything).  For a graph whose edges all
    join nodes of the graph, the extracted dataset has no dangling edge,
    and the random reducer run on the extractor's file with [max_nodos] at
    least the number of nodes writes all its nodes (in some order) and its
    edge list unchanged. *)
Theorem extract_then_sample_all w ciudad (distancia_km : Z) G0 dest (max_nodos : Z) :
  graph_from_place ciudad = inr G0 →
  let G := grafo_final simplify_graph G0 in
  grafo_cerrado G →
  (len (g_nodes G) ≤ max_nodos)%Z →
  let w1 := (extraer_calles_ciudad graph_from_place simplify_graph lower
               ciudad distancia_km w).2 in
  ∃ d s,
    files w1 !! filename_de lower ciudad = Some d ∧
    (∀ e, e ∈ edges d →
          e_from e ∈ ids_de (nodes d) ∧ e_to e ∈ ids_de (nodes d)) ∧
    archivos (crear_muestra_calles (filename_de lower ciudad) dest max_nodos) w1
      !! dest = Some s ∧
    nodes s ≡ₚ nodes d ∧ edges s = edges d.
Proof.
  intros Hplace G Hc Hmax w1.
  destruct (extraer_run w ciudad distancia_km G0 Hplace) as [Hfiles _].
  fold G in Hfiles. fold w1 in Hfiles.
  set (d := dataset_de ciudad (nodos_de G) (aristas_de G)) in *.
  assert (files w1 !! filename_de lower ciudad = Some d) as Hd
    by (by rewrite Hfiles, lookup_insert_eq).
  assert (∀ e, e ∈ edges d →
               e_from e ∈ ids_de (nodes d) ∧ e_to e ∈ ids_de (nodes d)) as Hcons
    by (by apply aristas_de_cerradas).
  destruct (calles_run_oversized w1 (filename_de lower ciudad) dest max_nodos d Hd)
    as (s & Hs & Hperm & _ & Hall).
  { simpl. rewrite nodos_de_map. unfold len in *. by rewrite length_fmap. }
  exists d, s. repeat split; try done. by apply Hcons. by apply Hcons.
  by apply Hall.
Qed.

(** X17 (what the extractor returns).  After a successful download the
    extractor always writes its file; it returns the written dataset when
    the graph has a node, and raises [ZeroDivisionError] at the density
    line, after the write, when the graph has none. *)
Theorem extraction_returns_iff_graph_nonempty w ciudad (distancia_km : Z) G0 :
  graph_from_place ciudad = inr G0 →
  let G := grafo_final simplify_graph G0 in
  let run := extraer_calles_ciudad graph_from_place simplify_graph lower
               ciudad distancia_km w in
  ∃ d, files run.2 !! filename_de lower ciudad = Some d ∧
       (g_nodes G ≠ [] → run.1 = inr d) ∧
       (g_nodes G = [] →
        run.1 = inl (Builtin ZeroDivisionError) ∧
        nodes d = [] ∧ total_nodes (meta d) = 0%Z).
Proof.
  intros Hplace G run.
  destruct (extraer_run w ciudad distancia_km G0 Hplace) as [Hfiles Hres].
  fold G in Hfiles, Hres. fold run in Hfiles, Hres.
  eexists. rewrite Hfiles, lookup_insert_eq. split; [done|]. split.
  - intros Hne. by rewrite Hres, bool_decide_eq_false_2.
  - intros E. rewrite Hres, bool_decide_eq_true_2 by done.
    split; [done|]. simpl. rewrite nodos_de_map, E. done.
Qed.

Lemma extraer_main_unfold w :
  extraer_main graph_from_place simplify_graph lower w =
    match extraer_calles_ciudad graph_from_place simplify_graph lower
            "Culiacán, Sinaloa, México" 10 w with
    | (inl e, w1) =>
        (inr tt,
         World (files w1)
               ((stdout w1 ++ [[T "❌ Error: "; T (str_excepcion e)]]) ++
                [[T "💡 Asegúrate de tener instalado: pip install osmnx"]])
               (rng w1))
    | (inr _, w1) => (inr tt, w1)
    end.
Proof.
  unfold extraer_main, try_except, bindX.
  by destruct (extraer_calles_ciudad _ _ _ _ _ w) as [[e|d] w1].
Qed.

(** X18 (the handler of the extractor's [__main__]).  What
    [extraer_calles_ciudad] raises inside the [try] of lines 119-124 is
    caught by the [except Exception] of line 125: the handler prints the
    error and the installation hint, and the script ends normally with the
    files as the call left them.  So after a failed download the files are
    as they were; and for a graph without nodes the dataset is on disk and
    the [ZeroDivisionError] of the density line is reported with the hint to
    install osmnx.  The exceptions here are the members of [excepcion], all
    of class [Exception]: [KeyboardInterrupt] and [SystemExit], an exception
    of [print], and a failure of the [import] of line 7, which is outside
    the [try], are not covered. *)
Theorem extraer_main_catches_exceptions w :
  let call := extraer_calles_ciudad graph_from_place simplify_graph lower
                "Culiacán, Sinaloa, México" 10 w in
  let run := extraer_main graph_from_place simplify_graph lower w in
  (∀ e, call.1 = inl e →
        run.1 = inr tt ∧
        files run.2 = files call.2 ∧
        stdout run.2 =
          stdout call.2 ++
          [[T "❌ Error: "; T (str_excepcion e)];
           [T "💡 Asegúrate de tener instalado: pip install osmnx"]]) ∧
  (∀ d, call.1 = inr d → run = (inr tt, call.2)) ∧
  (∀ mensaje,
     graph_from_place "Culiacán, Sinaloa, México" = inl mensaje →
     call.1 = inl (Osmnx mensaje) ∧
     files run.2 = files w ∧
     stdout run.2 =
       stdout w ++
       [[T "🗺️ Extrayendo calles de "; T "Culiacán, Sinaloa, México"; T "..."];
        [T "❌ Error: "; T mensaje];
        [T "💡 Asegúrate de tener instalado: pip install osmnx"]]) ∧
  (∀ G0,
     graph_from_place "Culiacán, Sinaloa, México" = inr G0 →
     let G := grafo_final simplify_graph G0 in
     files run.2 =
       <[filename_de lower "Culiacán, Sinaloa, México" :=
           dataset_de "Culiacán, Sinaloa, México" (nodos_de G) (aristas_de G)]>
         (files w) ∧
     (g_nodes G = [] →
      call.1 = inl (Builtin ZeroDivisionError) ∧
      stdout run.2 =
        stdout call.2 ++
        [[T "❌ Error: "; T "division by zero"];
         [T "💡 Asegúrate de tener instalado: pip install osmnx"]])).
Proof.
  intros call run.
  assert (run =
          match call with
          | (inl e, w1) =>
              (inr tt,
               World (files w1)
                     ((stdout w1 ++ [[T "❌ Error: "; T (str_excepcion e)]]) ++
                      [[T "💡 Asegúrate de tener instalado: pip install osmnx"]])
                     (rng w1))
          | (inr _, w1) => (inr tt, w1)
          end) as Hrun by apply extraer_main_unfold.
  assert (∀ mensaje,
            graph_from_place "Culiacán, Sinaloa, México" = inl mensaje →
            call = (inl (Osmnx mensaje),
                    World (files w)
                          (stdout w ++
                           [[T "🗺️ Extrayendo calles de ";
                             T "Culiacán, Sinaloa, México"; T "..."]])
                          (rng w))) as Hfail
    by (intros mensaje Hm; by apply extraer_run_fail).
  assert (∀ G0,
            graph_from_place "Culiacán, Sinaloa, México" = inr G0 →
            files call.2 =
              <[filename_de lower "Culiacán, Sinaloa, México" :=
                  dataset_de "Culiacán, Sinaloa, México"
                    (nodos_de (grafo_final simplify_graph G0))
                    (aristas_de (grafo_final simplify_graph G0))]> (files w) ∧
            call.1 = if bool_decide (g_nodes (grafo_final simplify_graph G0) = [])
                     then inl (Builtin ZeroDivisionError)
                     else inr (dataset_de "Culiacán, Sinaloa, México"
                                 (nodos_de (grafo_final simplify_graph G0))
                                 (aristas_de (grafo_final simplify_graph G0))))
    as Hok by (intros G0 HG; apply (extraer_run w _ 10 G0 HG)).
  clearbody call run. subst run.
  destruct call as [[e|d] w1]; simpl in *.
  - split; [|split; [|split]].
    + intros e' [= <-]. split; [done|]. split; [done|].
      by rewrite <- app_assoc.
    + done.
    + intros mensaje Hm. specialize (Hfail mensaje Hm).
      inversion Hfail; subst. split; [done|]. split; [done|].
      simpl. by rewrite <- !app_assoc.
    + intros G0 HG. cbv zeta. destruct (Hok G0 HG) as [Hfiles Hres].
      split; [done|]. intros Hempty.
      rewrite bool_decide_eq_true_2 in Hres by done.
      inversion Hres; subst. split; [done|]. by rewrite <- app_assoc.
  - split; [|split; [|split]].
    + done.
    + by intros d' _.
    + intros mensaje Hm. by specialize (Hfail mensaje Hm).
    + intros G0 HG. cbv zeta. destruct (Hok G0 HG) as [Hfiles Hres].
      split; [done|]. intros Hempty.
      by rewrite bool_decide_eq_true_2 in Hres.
Qed.

Variable graph_from_point : F * F → F → string + grafo F.

(** X19 (the extractor by coordinates writes nothing).  The variant that
    downloads around a point never touches a file: it returns the graph,
    simplified when the simplification went through and as downloaded when
    it raised, or passes on the exception of the download. *)
Theorem extraer_por_coordenadas_writes_nothing w (centro_lat centro_lon distancia_km : F) :
  let run := extraer_por_coordenadas graph_from_point simplify_graph
               centro_lat centro_lon distancia_km w in
  files run.2 = files w ∧
  run.1 = match graph_from_point (centro_lat, centro_lon)
                  (f_mul distancia_km (f_of_int 1000)) with
          | inl mensaje => inl (Osmnx mensaje)
          | inr G0 => inr (match simplify_graph G0 with
                           | inr G => G
                           | inl _ => G0
                           end)
          end.
Proof.
  intros run. unfold run, extraer_por_coordenadas.
  rewrite bindX_print; cbv beta zeta.
  destruct (graph_from_point _ _) as [mensaje|G0]; [done|].
  set (w1 := World _ _ _).
  rewrite (bindX_inr _ _ _ G0 w1) by done.
  destruct (simplificar_run G0 w1) as (w2 & Hsimp & Hf2).
  rewrite (bindX_inr _ _ _ _ w2 Hsimp).
  rewrite bindX_print; cbv beta. unfold retX. simpl.
  by rewrite Hf2.
Qed.
End ExtractorProperties.

(** ** The further properties on the small dataset and the small graph *)

Section More_on_example.
Open Scope R_scope.

Lemma mundo_nada : files mundo !! "nada.json" = None.
Proof. reflexivity. Qed.

Lemma mundo_public_red :
  files mundo_public !! "public/calles_culiacán__sinaloa__méxico.json"
    = Some red_ejemplo.
Proof. reflexivity. Qed.


(** The extractor names its file as the reducers' [__main__] expects it
    (there under [public/]). *)
Example filename_culiacan :
  filename_de minusculas "Culiacán, Sinaloa, México"
    = "calles_culiacán__sinaloa__méxico.json".
Proof. reflexivity. Qed.

Example nodos_grafo_ejemplo :
  n_id <$> nodos_de grafo_ejemplo = [1; 2; 3]%Z ∧
  aristas_de grafo_ejemplo =
    [Edge 1 2 1113 "Avenida Obregón" "primary" true 40;
     Edge 2 3 0 "Sin nombre" "unknown" false 50].
Proof. split; reflexivity. Qed.

Lemma grafo_ejemplo_cerrado :
  grafo_cerrado (grafo_final simplify_ejemplo grafo_ejemplo).
Proof.
  intros u v data Hin. cbn in Hin.
  apply elem_of_cons in Hin as [Hin|Hin].
  - inversion Hin; subst. cbn. split; set_solver.
  - apply list_elem_of_singleton in Hin. inversion Hin; subst. cbn.
    split; set_solver.
Qed.

Lemma missing_input_witness :
  (resultado (crear_muestra_calles "nada.json" "muestra.json" 2) mundo
     = inl FileNotFoundError ∧
   archivos (crear_muestra_calles "nada.json" "muestra.json" 2) mundo
     = files mundo) ∧
  (resultado (crear_muestra_centro "nada.json" "muestra.json" 0 0 5) mundo
     = inl FileNotFoundError ∧
   archivos (crear_muestra_centro "nada.json" "muestra.json" 0 0 5) mundo
     = files mundo).
Proof.
  exact (missing_input_fails_clean mundo "nada.json" "muestra.json" 2%Z 0 0 5
           mundo_nada).
Defined.

Lemma oversized_sample_witness :
  ∃ d, archivos (crear_muestra_calles "red.json" "muestra.json" 5) mundo
         !! "muestra.json" = Some d ∧
       nodes d ≡ₚ nodes red_ejemplo ∧
       edges d = filter (ambos_en (ids_de (nodes red_ejemplo))) (edges red_ejemplo) ∧
       ((∀ e, e ∈ edges red_ejemplo →
              e_from e ∈ ids_de (nodes red_ejemplo) ∧
              e_to e ∈ ids_de (nodes red_ejemplo)) →
        edges d = edges red_ejemplo).
Proof.
  apply (oversized_sample_keeps_everything mundo "red.json" "muestra.json" 5%Z
           red_ejemplo mundo_red).
  unfold len. simpl. lia.
Defined.





Lemma checked_reducer_witness :
  @Py.crear_muestra_centro PrimFloat.float
    (@Doubles.Double_PyFloat Doubles.libm_ejemplo)
    (@Doubles.Double_PyMath Doubles.libm_ejemplo)
    "red.json" "centro.json" Doubles.lat_norte Doubles.lon_norte Doubles.dos_km
    Doubles.mundo_antipodas
  = (inl ValueError,
     World (files Doubles.mundo_antipodas)
           ([] ++ [[T "📖 Leyendo dataset completo: "; T "red.json"]])
           (rng Doubles.mundo_antipodas)).
Proof.
  pose proof (@checked_reducer_refines PrimFloat.float
                (@Doubles.Double_PyFloat Doubles.libm_ejemplo)
                (@Doubles.Double_PyMath Doubles.libm_ejemplo)
                (@DoublesFacts.Double_PyMathSpec Doubles.libm_ejemplo)
                Doubles.mundo_antipodas "red.json" "centro.json"
                Doubles.lat_norte Doubles.lon_norte Doubles.dos_km) as Hrun.
  change (files Doubles.mundo_antipodas !! "red.json")
    with (Some Doubles.red_antipodas) in Hrun.
  cbv beta iota in Hrun.
  rewrite (@DoublesFacts.lazo_antipodas Doubles.libm_ejemplo
             (nodes Doubles.red_antipodas) Doubles.dos_km
             DoublesFacts.libm_ejemplo_glibc) in Hrun by (right; left).
  exact (proj2 (proj2 Hrun)).
Defined.

Lemma run_completes_witness :
  ((0 ≤ 2)%Z →
   (resultado (crear_muestra_calles "red.json" "muestra.json" 2) mundo = inr tt ↔
    (0 < 2)%Z ∧ nodes red_ejemplo ≠ [])) ∧
  (resultado (Py.crear_muestra_centro "red.json" "muestra.json" 0 0 5) mundo
     = inr tt ↔
   (∀ n, n ∈ nodes red_ejemplo →
         ∃ dist, Py.calcular_distancia 0 0 (n_lat n) (n_lon n) = inr dist) ∧
   ∃ n, n ∈ nodes red_ejemplo ∧ Py.dentro 0 0 5 n).
Proof.
  destruct (run_completes_iff_selection_nonempty mundo "red.json" "muestra.json"
              red_ejemplo 2%Z 0 0 5 mundo_red) as (Hcalles & Hcentro & _).
  exact (conj Hcalles Hcentro).
Defined.

Lemma centre_node_witness :
  Py.dentro 0 0 0 nodo_A ∧
  nodo_A ∈ nodos_centro (nodes red_ejemplo) 0 0 0 ∧
  (∃ d, archivos (Py.crear_muestra_centro "red.json" "centro.json" 0 0 0) mundo
          !! "centro.json" = Some d ∧ nodo_A ∈ nodes d) ∧
  resultado (Py.crear_muestra_centro "red.json" "centro.json" 0 0 0) mundo = inr tt.
Proof.
  pose proof (centre_node_always_selected mundo "red.json" "centro.json"
                red_ejemplo 0 0 0 nodo_A mundo_red) as Hsel.
  rewrite py_nodos_centro_R in Hsel.
  apply Hsel.
  - simpl. apply bool_decide_eq_true_2. lra.
  - reflexivity.
  - reflexivity.
  - simpl. left.
  - reflexivity.
  - reflexivity.
Defined.

Lemma main_writes_both_witness :
  ∃ d1,
    archivos Py.main mundo_public !! "public/calles_culiacan_muestra_1000.json"
      = Some d1 ∧
    archivos Py.main mundo_public !! "public/calles_culiacán__sinaloa__méxico.json"
      = Some red_ejemplo ∧
    len (nodes d1) = Z.min 1000 (len (nodes red_ejemplo)) ∧
    nodes d1 ⊆+ nodes red_ejemplo ∧
    nodos_centro (nodes red_ejemplo)
      (f_literal 247841 4) (f_literal (-1073866) 4) (f_of_int 2)
    = filter (Py.dentro (f_literal 247841 4) (f_literal (-1073866) 4)
                (f_of_int 2)) (nodes red_ejemplo) ∧
    (∃ d2, archivos Py.main mundo_public !! "public/calles_culiacan_centro.json"
             = Some d2 ∧
           nodes d2 = nodos_centro (nodes red_ejemplo)
                        (f_literal 247841 4) (f_literal (-1073866) 4)
                        (f_of_int 2)) ∧
    (resultado Py.main mundo_public = inr tt ↔
     nodos_centro (nodes red_ejemplo)
       (f_literal 247841 4) (f_literal (-1073866) 4) (f_of_int 2) ≠ []).
Proof.
  pose proof (main_writes_both_outputs mundo_public red_ejemplo mundo_public_red)
    as Hmain.
  rewrite py_nodos_centro_R in Hmain.
  apply Hmain. discriminate.
Defined.

Lemma main_stops_witness :
  resultado main mundo = inl FileNotFoundError ∧ archivos main mundo = files mundo.
Proof.
  apply (proj1 (main_stops_after_failed_sample mundo)). reflexivity.
Defined.

Lemma extraction_mirrors_witness :
  let run := extraer_calles_ciudad place_ejemplo simplify_ejemplo minusculas
               "Culiacán, Sinaloa, México" 10 mundo in
  ∃ d, files run.2 !! "calles_culiacán__sinaloa__méxico.json" = Some d ∧
       n_id <$> nodes d = [1; 2; 3]%Z ∧
       (λ n, (n_lat n, n_lon n)) <$> nodes d
         = (λ nd, (osm_y nd.2, osm_x nd.2)) <$> g_nodes grafo_ejemplo ∧
       (λ e, (e_from e, e_to e)) <$> edges d = [(1, 2); (2, 3)]%Z ∧
       total_nodes (meta d) = 3%Z ∧
       total_edges (meta d) = 2%Z ∧
       city (meta d) = "Culiacán, Sinaloa, México" ∧
       simplified (meta d) = Some true.
Proof.
  exact (extraction_mirrors_graph place_ejemplo simplify_ejemplo minusculas mundo
           "Culiacán, Sinaloa, México" 10 grafo_ejemplo eq_refl).
Defined.

Lemma extract_then_sample_witness :
  let w1 := (extraer_calles_ciudad place_ejemplo simplify_ejemplo minusculas
               "Culiacán, Sinaloa, México" 10 mundo).2 in
  ∃ d s,
    files w1 !! "calles_culiacán__sinaloa__méxico.json" = Some d ∧
    (∀ e, e ∈ edges d →
          e_from e ∈ ids_de (nodes d) ∧ e_to e ∈ ids_de (nodes d)) ∧
    archivos (crear_muestra_calles "calles_culiacán__sinaloa__méxico.json"
                "muestra.json" 1000) w1 !! "muestra.json" = Some s ∧
    nodes s ≡ₚ nodes d ∧ edges s = edges d.
Proof.
  apply (extract_then_sample_all place_ejemplo simplify_ejemplo minusculas mundo
           "Culiacán, Sinaloa, México" 10 grafo_ejemplo "muestra.json" 1000%Z
           eq_refl grafo_ejemplo_cerrado).
  unfold len. simpl. lia.
Defined.

Lemma extraction_returns_witness :
  let run := extraer_calles_ciudad place_ejemplo simplify_ejemplo minusculas
               "Culiacán, Sinaloa, México" 10 mundo in
  ∃ d, files run.2 !! "calles_culiacán__sinaloa__méxico.json" = Some d ∧
       (g_nodes grafo_ejemplo ≠ [] → run.1 = inr d) ∧
       (g_nodes grafo_ejemplo = [] →
        run.1 = inl (Builtin ZeroDivisionError) ∧
        nodes d = [] ∧ total_nodes (meta d) = 0%Z).
Proof.
  exact (extraction_returns_iff_graph_nonempty place_ejemplo simplify_ejemplo
           minusculas mundo "Culiacán, Sinaloa, México" 10 grafo_ejemplo eq_refl).
Defined.

(** With the place not found, the extractor's [__main__] prints the error
    and the hint and ends normally. *)
Example extraer_main_sin_lugar :
  extraer_main place_caido simplify_ejemplo minusculas mundo =
  (inr tt,
   World (files mundo)
         [[T "🗺️ Extrayendo calles de "; T "Culiacán, Sinaloa, México"; T "..."];
          [T "❌ Error: "; T "Nominatim could not geocode query"];
          [T "💡 Asegúrate de tener instalado: pip install osmnx"]]
         (rng mundo)).
Proof. reflexivity. Qed.
End More_on_example.


(** ** The simulated backend of [server.py] *)

Section Backend.

Lemma contiene_app_r (needle a b : string) :
  contiene needle b = true → contiene needle (a +:+ b) = true.
Proof.
  intros Hb. induction a as [|c a IH]; simpl; [done|].
  rewrite IH. apply orb_true_r.
Qed.

Example contiene_examples :
  contiene "astar" "run astar 1 10" = true ∧
  contiene "astar" "simulate 3600" = false ∧
  contiene "" "" = true.
Proof. repeat split; reflexivity. Qed.

(** X20 (the simulated backend never fails).  Every command gets a reply
    that begins with [[SUCCESS]]; the keywords are looked for anywhere in
    the command, in the order create_graph, dijkstra, astar, simulate, so the
    command [create_graph <size>] built for [/api/graph/create] gets the
    graph reply whatever the size text is, also when it is appended to other
    text. *)
Theorem backend_always_reports_success (command before size : string) :
  String.prefix "[SUCCESS]" (execute_cpp_command command) = true ∧
  execute_cpp_command ("create_graph " +:+ size)
    = "[SUCCESS] Created graph with specified nodes" ∧
  execute_cpp_command (before +:+ "create_graph " +:+ size)
    = "[SUCCESS] Created graph with specified nodes".
Proof.
  split; [|split].
  - unfold execute_cpp_command.
    destruct (contiene "create_graph" command); [done|].
    destruct (contiene "dijkstra" command); [done|].
    destruct (contiene "astar" command); [done|].
    destruct (contiene "simulate" command); done.
  - reflexivity.
  - unfold execute_cpp_command.
    rewrite contiene_app_r; [done|reflexivity].
Qed.
End Backend.
